(** * talentloft: the matching score and the top-matches ranking

    A shallow embedding of [calculate_matching_score] (src/app.py), of
    the two "show immediate matches" loops that rank jobs for a new
    candidate and candidates for a new job, and of the form code that
    builds the new candidate or job ([validate_salary],
    [validate_experience], [format_skills], the skill loop), over the
    data model of src/schema.py.

    The source is dynamically typed Python, so attribute values are kept
    as tagged Python values ([pyval]); exceptions are explicit
    ([result]); Python floats are IEEE 754 binary64 numbers, taken from
    the Standard Library's executable specification [SpecFloat]. *)

From Stdlib Require Import ZArith Lia Bool Ascii String SpecFloat Sorted Permutation.
From stdpp Require Import base decidable countable gmap strings list pretty sorting.

Local Open Scope Z_scope.

(** ** Enumerations of schema.py *)

Inductive LocationType := REMOTE | HYBRID | ON_SITE.
Inductive SkillLevel := BEGINNER | INTERMEDIATE | ADVANCED | EXPERT.
Inductive CareerPreference := UPWARD_MOBILITY | LATERAL_MOVE | CAREER_CHANGE.
Inductive Availability := IMMEDIATE | WITHIN_1_MONTH | WITHIN_3_MONTHS.

(** The [.value] of a [LocationType] member.  The members are plain
    [enum.Enum] members (no [str] mix-in). *)
Definition LocationType_value (l : LocationType) : string :=
  match l with
  | REMOTE => "Remote"
  | HYBRID => "Hybrid"
  | ON_SITE => "On-site"
  end.

Definition SkillLevel_value (l : SkillLevel) : Z :=
  match l with
  | BEGINNER => 1
  | INTERMEDIATE => 2
  | ADVANCED => 3
  | EXPERT => 4
  end.

#[global] Instance LocationType_eq_dec : EqDecision LocationType.
Proof. solve_decision. Defined.
#[global] Instance SkillLevel_eq_dec : EqDecision SkillLevel.
Proof. solve_decision. Defined.
#[global] Instance CareerPreference_eq_dec : EqDecision CareerPreference.
Proof. solve_decision. Defined.
#[global] Instance Availability_eq_dec : EqDecision Availability.
Proof. solve_decision. Defined.

#[global] Instance LocationType_countable : Countable LocationType.
Proof.
  refine (inj_countable'
    (fun l => match l with REMOTE => 0 | HYBRID => 1 | ON_SITE => 2 end)%nat
    (fun n => match n with 0 => REMOTE | 1 => HYBRID | _ => ON_SITE end)%nat _).
  by intros [].
Defined.

#[global] Instance SkillLevel_countable : Countable SkillLevel.
Proof.
  refine (inj_countable'
    (fun l => match l with
              | BEGINNER => 0 | INTERMEDIATE => 1 | ADVANCED => 2 | EXPERT => 3
              end)%nat
    (fun n => match n with
              | 0 => BEGINNER | 1 => INTERMEDIATE | 2 => ADVANCED | _ => EXPERT
              end)%nat _).
  by intros [].
Defined.

#[global] Instance CareerPreference_countable : Countable CareerPreference.
Proof.
  refine (inj_countable'
    (fun l => match l with
              | UPWARD_MOBILITY => 0 | LATERAL_MOVE => 1 | CAREER_CHANGE => 2
              end)%nat
    (fun n => match n with
              | 0 => UPWARD_MOBILITY | 1 => LATERAL_MOVE | _ => CAREER_CHANGE
              end)%nat _).
  by intros [].
Defined.

#[global] Instance Availability_countable : Countable Availability.
Proof.
  refine (inj_countable'
    (fun l => match l with
              | IMMEDIATE => 0 | WITHIN_1_MONTH => 1 | WITHIN_3_MONTHS => 2
              end)%nat
    (fun n => match n with
              | 0 => IMMEDIATE | 1 => WITHIN_1_MONTH | _ => WITHIN_3_MONTHS
              end)%nat _).
  by intros [].
Defined.

(** ** Python values

    The values an attribute of a [Skill], [Job] or [Candidate] can hold:
    what the columns of schema.py load ([None], an [int], a [str], a
    member of one of the four enumerations).  A [str] is the sequence
    of its characters, each a code point below 256. *)

Inductive pyval :=
| PyNone
| PyInt (z : Z)
| PyStr (s : string)
| PyLocationType (l : LocationType)
| PySkillLevel (l : SkillLevel)
| PyCareerPreference (c : CareerPreference)
| PyAvailability (a : Availability).

#[global] Instance pyval_eq_dec : EqDecision pyval.
Proof. solve_decision. Defined.

#[global] Instance pyval_countable : Countable pyval.
Proof.
  refine (inj_countable'
    (fun v => match v with
              | PyNone => inl ()
              | PyInt z => inr (inl z)
              | PyStr s => inr (inr (inl s))
              | PyLocationType l => inr (inr (inr (inl l)))
              | PySkillLevel l => inr (inr (inr (inr (inl l))))
              | PyCareerPreference c => inr (inr (inr (inr (inr (inl c)))))
              | PyAvailability a => inr (inr (inr (inr (inr (inr a)))))
              end)
    (fun x => match x with
              | inl _ => PyNone
              | inr (inl z) => PyInt z
              | inr (inr (inl s)) => PyStr s
              | inr (inr (inr (inl l))) => PyLocationType l
              | inr (inr (inr (inr (inl l)))) => PySkillLevel l
              | inr (inr (inr (inr (inr (inl c))))) => PyCareerPreference c
              | inr (inr (inr (inr (inr (inr a))))) => PyAvailability a
              end) _).
  by intros [].
Defined.

(** ** Exceptions *)

Inductive exn := TypeError | ValueError | OverflowError.

Inductive result (A : Type) :=
| Ok (a : A)
| Raise (e : exn).
Arguments Ok {A} a.
Arguments Raise {A} e.

#[global] Instance result_ret : MRet result := @Ok.
#[global] Instance result_bind : MBind result := fun A B f m =>
  match m with
  | Ok a => f a
  | Raise e => Raise e
  end.

(** [try: body except (TypeError, ValueError): handler] *)
Definition try_except_TypeError_ValueError {A} (body : result A)
    (handler : result A) : result A :=
  match body with
  | Raise TypeError | Raise ValueError => handler
  | r => r
  end.

(** ** Python operators on these values *)

(** [a == b].  None of these classes overrides [__eq__] across types:
    an enumeration member equals only itself, a [str] only an equal
    [str], an [int] only an equal [int]. *)
Definition py_eq (a b : pyval) : bool := bool_decide (a = b).

(** [x in [a, b]] on a two-element list display. *)
Definition py_in2 (x a b : pyval) : bool := py_eq x a || py_eq x b.

(** [a <= b]: defined between two [int]s and between two [str]s;
    [None], enumeration members and mixed operands raise [TypeError]. *)
Definition py_le (a b : pyval) : result bool :=
  match a, b with
  | PyInt x, PyInt y => Ok (x <=? y)
  | PyStr s, PyStr t => Ok (String.leb s t)
  | _, _ => Raise TypeError
  end.

(** [a >= b] *)
Definition py_ge (a b : pyval) : result bool := py_le b a.

(** [a + b] *)
Definition py_add (a b : pyval) : result pyval :=
  match a, b with
  | PyInt x, PyInt y => Ok (PyInt (x + y))
  | PyStr s, PyStr t => Ok (PyStr (s +:+ t))
  | _, _ => Raise TypeError
  end.

(** *** The builtin [int(...)] *)

(** The white space [int] skips at both ends of the text. *)
Definition is_space (a : ascii) : bool :=
  let n := nat_of_ascii a in
  ((9 <=? n)%nat && (n <=? 13)%nat) || (n =? 32)%nat.

(** Before the text is read, the white space beyond the ASCII range
    (next line, no-break space) is turned into a blank. *)
Definition space_to_ascii (a : ascii) : ascii :=
  let n := nat_of_ascii a in
  if (n =? 133)%nat || (n =? 160)%nat then " "%char else a.

Definition digit_of (a : ascii) : option Z :=
  let n := Z.of_nat (nat_of_ascii a) in
  if (48 <=? n) && (n <=? 57) then Some (n - 48) else None.

Definition is_digit (a : ascii) : bool :=
  match digit_of a with Some _ => true | None => false end.

Fixpoint lstrip (l : list ascii) : list ascii :=
  match l with
  | a :: l' => if is_space a then lstrip l' else l
  | [] => []
  end.

Definition strip (l : list ascii) : list ascii :=
  rev (lstrip (rev (lstrip l))).

(** Decimal digits, single underscores allowed between digits. *)
Fixpoint parse_digits (l : list ascii) (acc : Z) (after_digit : bool)
    : option Z :=
  match l with
  | [] => if after_digit then Some acc else None
  | a :: l' =>
      match digit_of a with
      | Some d => parse_digits l' (10 * acc + d) true
      | None =>
          if Ascii.eqb a "_" && after_digit then parse_digits l' acc false
          else None
      end
  end.

(** [sys.get_int_max_str_digits()]: a text of more digits is refused. *)
Definition int_max_str_digits : Z := 4300.

Definition count_digits (l : list ascii) : Z :=
  Z.of_nat (length (List.filter is_digit l)).

(** The text after the sign. *)
Definition parse_unsigned (l : list ascii) : option Z :=
  if int_max_str_digits <? count_digits l then None
  else parse_digits l 0 false.

Definition int_of_str (s : string) : option Z :=
  match strip (space_to_ascii <$> list_ascii_of_string s) with
  | "+"%char :: l => parse_unsigned l
  | "-"%char :: l => Z.opp <$> parse_unsigned l
  | l => parse_unsigned l
  end.

(** [int(v)]: an [int] is returned as it is, a [str] is parsed
    ([ValueError] when it is not an integer literal), anything else is
    a [TypeError]. *)
Definition py_int (v : pyval) : result Z :=
  match v with
  | PyInt z => Ok z
  | PyStr s =>
      match int_of_str s with
      | Some z => Ok z
      | None => Raise ValueError
      end
  | _ => Raise TypeError
  end.

(** ** Python floats: IEEE 754 binary64 *)

Definition prec : Z := 53.
Definition emax : Z := 1024.

(** The nearest binary64 number to an [int] (round half to even). *)
Definition Z2SF (z : Z) : spec_float := binary_normalize prec emax z 0 false.

(** An [int] operand of a float operation is converted first; an [int]
    that rounds past the largest float raises [OverflowError]. *)
Definition float_of_int (z : Z) : result spec_float :=
  match Z2SF z with
  | S754_infinity _ => Raise OverflowError
  | f => Ok f
  end.

(** The float literal written [num/den] in decimal ([0.4] is
    [float_literal 4 10]): the correctly rounded quotient of two
    exactly representable integers. *)
Definition float_literal (num den : Z) : spec_float :=
  SFdiv prec emax (Z2SF num) (Z2SF den).

Definition float_add (x y : spec_float) : spec_float := SFadd prec emax x y.
Definition float_mul (x y : spec_float) : spec_float := SFmul prec emax x y.
Definition float_lt (x y : spec_float) : bool := SFltb x y.

(** [z * f] for an [int] [z] and a float [f]. *)
Definition int_mul_float (z : Z) (f : spec_float) : result spec_float :=
  x ← float_of_int z; Ok (float_mul x f).

(** ** The tables of schema.py ([created_at] is not read by the code
    below and is left out) *)

Module Skill.
Record t := {
  id : pyval;
  skill_type : pyval;
  skill_group : pyval;
  skill_level : pyval
}.
End Skill.

Module Job.
Record t := {
  id : pyval;
  title : pyval;
  required_experience : pyval;
  location_type : pyval;
  salary_min : pyval;
  salary_max : pyval;
  availability : pyval;
  career_preference : pyval;
  skills : list Skill.t
}.
End Job.

Module Candidate.
Record t := {
  id : pyval;
  username : pyval;
  total_experience : pyval;
  preferred_location : pyval;
  expected_salary_min : pyval;
  expected_salary_max : pyval;
  career_preference : pyval;
  skills : list Skill.t
}.
End Candidate.

(** ** [calculate_matching_score] (app.py, lines 17-42) *)

(** [len(s)] of a set *)
Definition py_len `{Countable A} (s : gset A) : Z := Z.of_nat (size s).

(** [{(s.skill_group, s.skill_level) for s in skills}] *)
Definition skill_pairs (skills : list Skill.t) : gset (pyval * pyval) :=
  list_to_set ((fun s => (Skill.skill_group s, Skill.skill_level s)) <$> skills).

(** [{sg for sg, _ in pairs}] *)
Definition skill_groups (pairs : gset (pyval * pyval)) : gset pyval :=
  set_map fst pairs.

Definition job_skills (job : Job.t) : gset (pyval * pyval) :=
  skill_pairs (Job.skills job).

Definition candidate_skills (candidate : Candidate.t) : gset (pyval * pyval) :=
  skill_pairs (Candidate.skills candidate).

Definition full_matches (job : Job.t) (candidate : Candidate.t) : Z :=
  py_len (job_skills job ∩ candidate_skills candidate).

Definition group_matches (job : Job.t) (candidate : Candidate.t) : Z :=
  py_len (skill_groups (job_skills job)
            ∩ skill_groups (candidate_skills candidate)).

Definition partial_matches (job : Job.t) (candidate : Candidate.t) : Z :=
  group_matches job candidate - full_matches job candidate.

(** [full_matches * 10 + partial_matches * 5] *)
Definition skill_raw (job : Job.t) (candidate : Candidate.t) : Z :=
  full_matches job candidate * 10 + partial_matches job candidate * 5.

Definition skill_score (job : Job.t) (candidate : Candidate.t)
    : result spec_float :=
  int_mul_float (skill_raw job candidate) (float_literal 4 10).

(** [int(v) if v is not None else 0] *)
Definition int_or_zero (v : pyval) : result Z :=
  if py_eq v PyNone then Ok 0 else py_int v.

Definition exp_score (job : Job.t) (candidate : Candidate.t)
    : result spec_float :=
  try_except_TypeError_ValueError
    (candidate_exp ← int_or_zero (Candidate.total_experience candidate);
     job_exp ← int_or_zero (Job.required_experience job);
     if candidate_exp >=? job_exp
     then int_mul_float 10 (float_literal 3 10)
     else int_mul_float (-5) (float_literal 3 10))
    (int_mul_float (-5) (float_literal 3 10)).

Definition career_score (job : Job.t) (candidate : Candidate.t)
    : result spec_float :=
  if py_eq (Job.career_preference job) (Candidate.career_preference candidate)
  then int_mul_float 10 (float_literal 2 10)
  else int_mul_float (-10) (float_literal 2 10).

Definition location_score (job : Job.t) (candidate : Candidate.t) : Z :=
  if py_eq (Job.location_type job) (Candidate.preferred_location candidate)
  then 10
  else if py_in2 (PyStr "Hybrid") (Job.location_type job)
                 (Candidate.preferred_location candidate)
  then 5
  else 0.

(** [(a <= b) and (c >= d)]: the second comparison is evaluated only
    when the first is true. *)
Definition salary_overlap (job : Job.t) (candidate : Candidate.t)
    : result bool :=
  b ← py_le (Candidate.expected_salary_min candidate) (Job.salary_max job);
  if b : bool
  then py_ge (Candidate.expected_salary_max candidate) (Job.salary_min job)
  else Ok false.

Definition salary_score (job : Job.t) (candidate : Candidate.t) : result Z :=
  overlap ← salary_overlap job candidate;
  if overlap : bool then Ok 10
  else
    bound ← py_add (Job.salary_max job) (PyInt 20000);
    near ← py_le (Candidate.expected_salary_min candidate) bound;
    Ok (if near : bool then 5 else 0).

Definition location_salary_score (job : Job.t) (candidate : Candidate.t)
    : result spec_float :=
  let location_score := location_score job candidate in
  salary_score ← salary_score job candidate;
  int_mul_float (location_score + salary_score) (float_literal 5 100).

Definition calculate_matching_score (job : Job.t) (candidate : Candidate.t)
    : result spec_float :=
  skill_score ← skill_score job candidate;
  exp_score ← exp_score job candidate;
  career_score ← career_score job candidate;
  location_salary_score ← location_salary_score job candidate;
  Ok (float_add (float_add (float_add skill_score exp_score) career_score)
        location_salary_score).

(** ** The ranking loops (app.py, lines 150-157 and 243-250) *)

(** [l.sort(key=key, reverse=reverse)] on float keys: a stable sort that
    compares keys with [<] only; with [reverse] every comparison is
    taken the other way round.  The list is built from its last element
    backwards: [x] is put behind the elements that come strictly before
    it and in front of all the others, among them the elements of equal
    key, which followed [x] in the input. *)
Section ListSort.
Context {A : Type} (key : A -> spec_float) (reverse : bool).

Definition sort_before (x y : A) : bool :=
  if reverse then float_lt (key y) (key x) else float_lt (key x) (key y).

Fixpoint sort_insert (x : A) (l : list A) : list A :=
  match l with
  | [] => [x]
  | y :: l' => if sort_before y x then y :: sort_insert x l' else x :: l
  end.

Definition py_sort (l : list A) : list A := foldr sort_insert [] l.
End ListSort.

(** [l[:k]] *)
Definition py_slice_to {A} (k : Z) (l : list A) : list A :=
  if 0 <=? k then take (Z.to_nat k) l
  else take (length l - Z.to_nat (- k))%nat l.

(** [matches = []; for e in entities: matches.append((e, score(e)))]
    followed by [matches.sort(key=lambda x: x[1], reverse=True)] and
    [matches[:top_k]]; the first exception of the scorer ends the loop.
    Both loops of app.py are this one, with 5 for [top_k]. *)
Definition rank {E} (score : E -> result spec_float) (entities : list E)
    (top_k : Z) : result (list (E * spec_float)) :=
  matches ← mapM (fun e => s ← score e; Ok (e, s)) entities;
  Ok (py_slice_to top_k (py_sort snd true matches)).

(** "Your Top Job Matches" for a new candidate: [matches[:5]]. *)
Definition top_job_matches (jobs : list Job.t) (new_candidate : Candidate.t)
    : result (list (Job.t * spec_float)) :=
  rank (fun job => calculate_matching_score job new_candidate) jobs 5.

(** "Top Candidate Matches" for a new job: [matches[:5]]. *)
Definition top_candidate_matches (new_job : Job.t)
    (candidates : list Candidate.t)
    : result (list (Candidate.t * spec_float)) :=
  rank (fun candidate => calculate_matching_score new_job candidate)
    candidates 5.

(** ** Predicates used in the statements *)

(** Float comparisons as propositions. *)
Definition float_le (x y : spec_float) : Prop := SFleb x y = true.
Definition float_eqb (x y : spec_float) : bool := SFeqb x y.

Definition is_nan (x : spec_float) : bool :=
  match x with S754_nan => true | _ => false end.

(** A float that is a zero or a finite number. *)
Definition is_finite (x : spec_float) : bool :=
  match x with S754_zero _ | S754_finite _ _ _ => true | _ => false end.

(** A float whose sign bit is clear and that is not a NaN. *)
Definition is_nonneg (x : spec_float) : bool :=
  match x with
  | S754_zero false | S754_finite false _ _ | S754_infinity false => true
  | _ => false
  end.

(** An experience value that [int(...)] rejects: a [str] that is not an
    integer literal, or an object of a type [int] does not accept.
    [None] never reaches [int]. *)
Definition non_numeric (v : pyval) : bool :=
  match v with
  | PyNone | PyInt _ => false
  | PyStr s => bool_decide (int_of_str s = None)
  | _ => true
  end.

(** The input domain of the data model: typed columns, no [None]. *)
Definition is_nonneg_int (v : pyval) : bool :=
  match v with PyInt z => 0 <=? z | _ => false end.
Definition is_str (v : pyval) : bool :=
  match v with PyStr _ => true | _ => false end.
Definition is_LocationType (v : pyval) : bool :=
  match v with PyLocationType _ => true | _ => false end.
Definition is_SkillLevel (v : pyval) : bool :=
  match v with PySkillLevel _ => true | _ => false end.
Definition is_CareerPreference (v : pyval) : bool :=
  match v with PyCareerPreference _ => true | _ => false end.
Definition is_Availability (v : pyval) : bool :=
  match v with PyAvailability _ => true | _ => false end.

(** [sys.maxsize]: no Python list has more elements. *)
Definition sys_maxsize : Z := 2 ^ 63 - 1.

Definition valid_skill (s : Skill.t) : bool :=
  is_str (Skill.skill_group s) && is_SkillLevel (Skill.skill_level s).

(** A non-empty list of catalogue skills (of a length a list can have). *)
Definition valid_skills (skills : list Skill.t) : bool :=
  negb (bool_decide (skills = []))
  && forallb valid_skill skills
  && (Z.of_nat (length skills) <=? sys_maxsize).

Definition range_ordered (lo hi : pyval) : bool :=
  match lo, hi with
  | PyInt a, PyInt b => a <=? b
  | _, _ => false
  end.

Definition valid_job (job : Job.t) : bool :=
  is_nonneg_int (Job.required_experience job)
  && is_LocationType (Job.location_type job)
  && range_ordered (Job.salary_min job) (Job.salary_max job)
  && is_Availability (Job.availability job)
  && is_CareerPreference (Job.career_preference job)
  && valid_skills (Job.skills job).

Definition valid_candidate (candidate : Candidate.t) : bool :=
  is_nonneg_int (Candidate.total_experience candidate)
  && is_LocationType (Candidate.preferred_location candidate)
  && range_ordered (Candidate.expected_salary_min candidate)
       (Candidate.expected_salary_max candidate)
  && is_CareerPreference (Candidate.career_preference candidate)
  && valid_skills (Candidate.skills candidate).

(** Two skills, jobs or candidates that differ at most in [skill_type]
    (and, for a job, in [availability]). *)
Definition same_but_skill_type (s s' : Skill.t) : Prop :=
  Skill.id s = Skill.id s'
  /\ Skill.skill_group s = Skill.skill_group s'
  /\ Skill.skill_level s = Skill.skill_level s'.

Definition job_low_eq (j j' : Job.t) : Prop :=
  Job.id j = Job.id j'
  /\ Job.title j = Job.title j'
  /\ Job.required_experience j = Job.required_experience j'
  /\ Job.location_type j = Job.location_type j'
  /\ Job.salary_min j = Job.salary_min j'
  /\ Job.salary_max j = Job.salary_max j'
  /\ Job.career_preference j = Job.career_preference j'
  /\ Forall2 same_but_skill_type (Job.skills j) (Job.skills j').

Definition candidate_low_eq (c c' : Candidate.t) : Prop :=
  Candidate.id c = Candidate.id c'
  /\ Candidate.username c = Candidate.username c'
  /\ Candidate.total_experience c = Candidate.total_experience c'
  /\ Candidate.preferred_location c = Candidate.preferred_location c'
  /\ Candidate.expected_salary_min c = Candidate.expected_salary_min c'
  /\ Candidate.expected_salary_max c = Candidate.expected_salary_max c'
  /\ Candidate.career_preference c = Candidate.career_preference c'
  /\ Forall2 same_but_skill_type (Candidate.skills c) (Candidate.skills c').

(** What a ranking of [matches] is: the same pairs, highest score first,
    pairs of equal score in the order they had in [matches]. *)
Definition sorted_desc {E} (l : list (E * spec_float)) : Prop :=
  StronglySorted (fun a b => float_le (snd b) (snd a)) l.

Definition stable_wrt {E} (matches l : list (E * spec_float)) : Prop :=
  forall v : spec_float,
    filter (fun m => float_eqb (snd m) v = true) l
    = filter (fun m => float_eqb (snd m) v = true) matches.

(** [matches] pairs every entity with its score, in input order: the
    list the loop has built when no call of the scorer raised. *)
Definition scored {E} (score : E -> result spec_float) (entities : list E)
    (matches : list (E * spec_float)) : Prop :=
  Forall2 (fun e m => fst m = e /\ score e = Ok (snd m)) entities matches.

(** [out] is the first [top_k] pairs of a ranking of [matches]. *)
Definition ranking_of {E} (matches : list (E * spec_float)) (top_k : Z)
    (out : list (E * spec_float)) : Prop :=
  exists ranking,
    out = take (Z.to_nat top_k) ranking
    /\ Permutation matches ranking
    /\ sorted_desc ranking
    /\ stable_wrt matches ranking.

(** ** Sample data *)

Definition python_advanced : Skill.t :=
  {| Skill.id := PyInt 1; Skill.skill_type := PyStr "Programming";
     Skill.skill_group := PyStr "Python";
     Skill.skill_level := PySkillLevel ADVANCED |}.

Definition python_expert : Skill.t :=
  {| Skill.id := PyInt 2; Skill.skill_type := PyStr "Programming";
     Skill.skill_group := PyStr "Python";
     Skill.skill_level := PySkillLevel EXPERT |}.

Definition python_beginner : Skill.t :=
  {| Skill.id := PyInt 3; Skill.skill_type := PyStr "Programming";
     Skill.skill_group := PyStr "Python";
     Skill.skill_level := PySkillLevel BEGINNER |}.

Definition sample_job : Job.t :=
  {| Job.id := PyInt 1; Job.title := PyStr "Backend developer";
     Job.required_experience := PyInt 3;
     Job.location_type := PyLocationType ON_SITE;
     Job.salary_min := PyInt 80000; Job.salary_max := PyInt 120000;
     Job.availability := PyAvailability IMMEDIATE;
     Job.career_preference := PyCareerPreference UPWARD_MOBILITY;
     Job.skills := [python_advanced] |}.

Definition sample_candidate : Candidate.t :=
  {| Candidate.id := PyInt 1; Candidate.username := PyStr "anon42";
     Candidate.total_experience := PyInt 5;
     Candidate.preferred_location := PyLocationType ON_SITE;
     Candidate.expected_salary_min := PyInt 90000;
     Candidate.expected_salary_max := PyInt 110000;
     Candidate.career_preference := PyCareerPreference UPWARD_MOBILITY;
     Candidate.skills := [python_advanced] |}.

Definition hybrid_job : Job.t :=
  {| Job.id := PyInt 2; Job.title := PyStr "Data analyst";
     Job.required_experience := PyInt 0;
     Job.location_type := PyLocationType HYBRID;
     Job.salary_min := PyInt 80000; Job.salary_max := PyInt 120000;
     Job.availability := PyAvailability WITHIN_1_MONTH;
     Job.career_preference := PyCareerPreference LATERAL_MOVE;
     Job.skills := [python_expert] |}.

Definition on_site_candidate : Candidate.t :=
  {| Candidate.id := PyInt 2; Candidate.username := PyStr "anon7";
     Candidate.total_experience := PyInt 2;
     Candidate.preferred_location := PyLocationType ON_SITE;
     Candidate.expected_salary_min := PyInt 130000;
     Candidate.expected_salary_max := PyInt 150000;
     Candidate.career_preference := PyCareerPreference CAREER_CHANGE;
     Candidate.skills := [python_beginner] |}.

(** A candidate row whose [total_experience] column is NULL. *)
Definition no_experience_candidate : Candidate.t :=
  {| Candidate.id := PyInt 3; Candidate.username := PyStr "anon9";
     Candidate.total_experience := PyNone;
     Candidate.preferred_location := PyLocationType REMOTE;
     Candidate.expected_salary_min := PyInt 60000;
     Candidate.expected_salary_max := PyInt 100000;
     Candidate.career_preference := PyCareerPreference LATERAL_MOVE;
     Candidate.skills := [python_expert] |}.

(** A candidate whose [total_experience] is the string ["five"]. *)
Definition malformed_candidate : Candidate.t :=
  {| Candidate.id := PyInt 4; Candidate.username := PyStr "anon11";
     Candidate.total_experience := PyStr "five";
     Candidate.preferred_location := PyLocationType REMOTE;
     Candidate.expected_salary_min := PyInt 60000;
     Candidate.expected_salary_max := PyInt 100000;
     Candidate.career_preference := PyCareerPreference LATERAL_MOVE;
     Candidate.skills := [python_expert] |}.

(** A job and a candidate that share the group Python at two levels,
    both matched exactly. *)
Definition two_level_job : Job.t :=
  {| Job.id := PyInt 3; Job.title := PyStr "Python trainer";
     Job.required_experience := PyInt 1;
     Job.location_type := PyLocationType REMOTE;
     Job.salary_min := PyInt 50000; Job.salary_max := PyInt 70000;
     Job.availability := PyAvailability WITHIN_3_MONTHS;
     Job.career_preference := PyCareerPreference LATERAL_MOVE;
     Job.skills := [python_advanced; python_expert] |}.

Definition two_level_candidate : Candidate.t :=
  {| Candidate.id := PyInt 5; Candidate.username := PyStr "anon13";
     Candidate.total_experience := PyInt 4;
     Candidate.preferred_location := PyLocationType REMOTE;
     Candidate.expected_salary_min := PyInt 55000;
     Candidate.expected_salary_max := PyInt 65000;
     Candidate.career_preference := PyCareerPreference LATERAL_MOVE;
     Candidate.skills := [python_expert; python_advanced] |}.

(** [sample_job] with another availability and another [skill_type]. *)
Definition sample_job_relabelled : Job.t :=
  {| Job.id := PyInt 1; Job.title := PyStr "Backend developer";
     Job.required_experience := PyInt 3;
     Job.location_type := PyLocationType ON_SITE;
     Job.salary_min := PyInt 80000; Job.salary_max := PyInt 120000;
     Job.availability := PyAvailability WITHIN_3_MONTHS;
     Job.career_preference := PyCareerPreference UPWARD_MOBILITY;
     Job.skills :=
       [ {| Skill.id := PyInt 1; Skill.skill_type := PyStr "Scripting";
            Skill.skill_group := PyStr "Python";
            Skill.skill_level := PySkillLevel ADVANCED |} ] |}.

(** ** The skill counts in the words of the specification

    Counted on the two skill lists themselves: the distinct
    (skill_group, skill_level) pairs that both lists contain, and the
    distinct skill groups that both lists contain. *)

Definition pairs_of (skills : list Skill.t) : list (pyval * pyval) :=
  (fun s => (Skill.skill_group s, Skill.skill_level s)) <$> skills.

Definition groups_of (skills : list Skill.t) : list pyval :=
  Skill.skill_group <$> skills.

(** The number of distinct values that occur in both lists. *)
Definition count_common `{EqDecision A} (l k : list A) : Z :=
  Z.of_nat (length (remove_dups (list_intersection l k))).

Definition full_matches_spec (job : Job.t) (candidate : Candidate.t) : Z :=
  count_common (pairs_of (Job.skills job))
    (pairs_of (Candidate.skills candidate)).

Definition group_matches_spec (job : Job.t) (candidate : Candidate.t) : Z :=
  count_common (groups_of (Job.skills job))
    (groups_of (Candidate.skills candidate)).

(** [p] is the one pair, [g] the one group, that both sides have. *)
Definition only_common_pair (job : Job.t) (candidate : Candidate.t)
    (p : pyval * pyval) : Prop :=
  forall q, q ∈ pairs_of (Job.skills job)
            /\ q ∈ pairs_of (Candidate.skills candidate) <-> q = p.

Definition no_common_pair (job : Job.t) (candidate : Candidate.t) : Prop :=
  forall q, ~ (q ∈ pairs_of (Job.skills job)
               /\ q ∈ pairs_of (Candidate.skills candidate)).

Definition only_common_group (job : Job.t) (candidate : Candidate.t)
    (g : pyval) : Prop :=
  forall h, h ∈ groups_of (Job.skills job)
            /\ h ∈ groups_of (Candidate.skills candidate) <-> h = g.

(** Two groups shared, each at differing levels. *)
Definition sql_expert : Skill.t :=
  {| Skill.id := PyInt 6; Skill.skill_type := PyStr "Database";
     Skill.skill_group := PyStr "SQL";
     Skill.skill_level := PySkillLevel EXPERT |}.

Definition sql_intermediate : Skill.t :=
  {| Skill.id := PyInt 4; Skill.skill_type := PyStr "Database";
     Skill.skill_group := PyStr "SQL";
     Skill.skill_level := PySkillLevel INTERMEDIATE |}.

Definition two_group_job : Job.t :=
  {| Job.id := PyInt 5; Job.title := PyStr "Data engineer";
     Job.required_experience := PyInt 2;
     Job.location_type := PyLocationType REMOTE;
     Job.salary_min := PyInt 60000; Job.salary_max := PyInt 90000;
     Job.availability := PyAvailability IMMEDIATE;
     Job.career_preference := PyCareerPreference LATERAL_MOVE;
     Job.skills := [python_advanced; sql_intermediate] |}.

Definition two_group_candidate : Candidate.t :=
  {| Candidate.id := PyInt 6; Candidate.username := PyStr "anon17";
     Candidate.total_experience := PyInt 3;
     Candidate.preferred_location := PyLocationType REMOTE;
     Candidate.expected_salary_min := PyInt 65000;
     Candidate.expected_salary_max := PyInt 85000;
     Candidate.career_preference := PyCareerPreference LATERAL_MOVE;
     Candidate.skills := [python_beginner; sql_expert] |}.

(** ** The form helpers and the two submit handlers of app.py

    The code below also raises [KeyError] (a name that is no member of
    an enumeration) and [AttributeError] ([.name] of a value that is no
    member). *)

Inductive exception :=
| Builtin (e : exn)
| KeyError
| AttributeError.

Inductive outcome (A : Type) :=
| Done (a : A)
| Failed (e : exception).
Arguments Done {A} a.
Arguments Failed {A} e.

#[global] Instance outcome_ret : MRet outcome := @Done.
#[global] Instance outcome_bind : MBind outcome := fun A B f m =>
  match m with
  | Done a => f a
  | Failed e => Failed e
  end.

Definition lift {A} (r : result A) : outcome A :=
  match r with
  | Ok a => Done a
  | Raise e => Failed (Builtin e)
  end.

(** *** Names and values of the enumeration members *)

Definition LocationType_members : list LocationType := [REMOTE; HYBRID; ON_SITE].
Definition SkillLevel_members : list SkillLevel :=
  [BEGINNER; INTERMEDIATE; ADVANCED; EXPERT].
Definition CareerPreference_members : list CareerPreference :=
  [UPWARD_MOBILITY; LATERAL_MOVE; CAREER_CHANGE].
Definition Availability_members : list Availability :=
  [IMMEDIATE; WITHIN_1_MONTH; WITHIN_3_MONTHS].

Definition LocationType_name (l : LocationType) : string :=
  match l with
  | REMOTE => "REMOTE"
  | HYBRID => "HYBRID"
  | ON_SITE => "ON_SITE"
  end.

Definition SkillLevel_name (l : SkillLevel) : string :=
  match l with
  | BEGINNER => "BEGINNER"
  | INTERMEDIATE => "INTERMEDIATE"
  | ADVANCED => "ADVANCED"
  | EXPERT => "EXPERT"
  end.

Definition CareerPreference_name (c : CareerPreference) : string :=
  match c with
  | UPWARD_MOBILITY => "UPWARD_MOBILITY"
  | LATERAL_MOVE => "LATERAL_MOVE"
  | CAREER_CHANGE => "CAREER_CHANGE"
  end.

Definition CareerPreference_value (c : CareerPreference) : string :=
  match c with
  | UPWARD_MOBILITY => "Upward Mobility"
  | LATERAL_MOVE => "Lateral Move"
  | CAREER_CHANGE => "Career Change"
  end.

Definition Availability_name (a : Availability) : string :=
  match a with
  | IMMEDIATE => "IMMEDIATE"
  | WITHIN_1_MONTH => "WITHIN_1_MONTH"
  | WITHIN_3_MONTHS => "WITHIN_3_MONTHS"
  end.

Definition Availability_value (a : Availability) : string :=
  match a with
  | IMMEDIATE => "Immediate"
  | WITHIN_1_MONTH => "Within 1 Month"
  | WITHIN_3_MONTHS => "Within 3 Months"
  end.

(** [LocationType(v)]: a member is returned as it is, another value is
    looked up among the members' values; [ValueError] when there is
    none. *)
Definition LocationType_by_value (v : pyval) : result LocationType :=
  match v with
  | PyLocationType l => Ok l
  | PyStr s =>
      match find (fun l => String.eqb (LocationType_value l) s)
              LocationType_members with
      | Some l => Ok l
      | None => Raise ValueError
      end
  | _ => Raise ValueError
  end.

(** [CareerPreference(v)] *)
Definition CareerPreference_by_value (v : pyval) : result CareerPreference :=
  match v with
  | PyCareerPreference c => Ok c
  | PyStr s =>
      match find (fun c => String.eqb (CareerPreference_value c) s)
              CareerPreference_members with
      | Some c => Ok c
      | None => Raise ValueError
      end
  | _ => Raise ValueError
  end.

(** [Availability(v)] *)
Definition Availability_by_value (v : pyval) : result Availability :=
  match v with
  | PyAvailability a => Ok a
  | PyStr s =>
      match find (fun a => String.eqb (Availability_value a) s)
              Availability_members with
      | Some a => Ok a
      | None => Raise ValueError
      end
  | _ => Raise ValueError
  end.

(** [SkillLevel[name]]: [KeyError] when no member has that name. *)
Definition SkillLevel_by_name (name : string) : outcome SkillLevel :=
  match find (fun l => String.eqb (SkillLevel_name l) name)
          SkillLevel_members with
  | Some l => Done l
  | None => Failed KeyError
  end.

(** [v.name] *)
Definition py_name (v : pyval) : outcome string :=
  match v with
  | PyLocationType l => Done (LocationType_name l)
  | PySkillLevel l => Done (SkillLevel_name l)
  | PyCareerPreference c => Done (CareerPreference_name c)
  | PyAvailability a => Done (Availability_name a)
  | _ => Failed AttributeError
  end.

(** [str(v)], which is what an f-string field without a format
    specification prints. *)
Definition py_str (v : pyval) : string :=
  match v with
  | PyNone => "None"
  | PyInt z => pretty z
  | PyStr s => s
  | PyLocationType l => "LocationType." +:+ LocationType_name l
  | PySkillLevel l => "SkillLevel." +:+ SkillLevel_name l
  | PyCareerPreference c => "CareerPreference." +:+ CareerPreference_name c
  | PyAvailability a => "Availability." +:+ Availability_name a
  end.

(** *** String methods *)

(** [s.split(" (")] *)
Definition cons_head (a : ascii) (parts : list string) : list string :=
  match parts with
  | p :: ps => String a p :: ps
  | [] => [String a ""]
  end.

Fixpoint split_space_paren (s : string) : list string :=
  match s with
  | EmptyString => [""]
  | String a s' =>
      match s' with
      | String b rest =>
          if Ascii.eqb a " " && Ascii.eqb b "("
          then "" :: split_space_paren rest
          else cons_head a (split_space_paren s')
      | EmptyString => cons_head a (split_space_paren s')
      end
  end.

(** [s[:-1]] *)
Fixpoint drop_last (s : string) : string :=
  match s with
  | EmptyString => ""
  | String a EmptyString => ""
  | String a s' => String a (drop_last s')
  end.

Definition upper_char (a : ascii) : ascii :=
  let n := nat_of_ascii a in
  if ((97 <=? n) && (n <=? 122))%nat then ascii_of_nat (n - 32) else a.

(** [s.upper()] on the ASCII letters.  The other characters are kept
    as they are: their upper-case forms are not ASCII letters either
    (or are ["SS"]), so the result is the name of a [SkillLevel] member
    exactly when the real one is. *)
Fixpoint upper (s : string) : string :=
  match s with
  | EmptyString => ""
  | String a s' => String (upper_char a) (upper s')
  end.

(** The characters [str.strip()] removes. *)
Definition is_str_space (a : ascii) : bool :=
  let n := nat_of_ascii a in
  ((9 <=? n) && (n <=? 13) || (28 <=? n) && (n <=? 32)
   || (n =? 133) || (n =? 160))%nat.

Fixpoint str_lstrip (l : list ascii) : list ascii :=
  match l with
  | a :: l' => if is_str_space a then str_lstrip l' else l
  | [] => []
  end.

(** [s.strip()] *)
Definition str_strip (s : string) : string :=
  string_of_list_ascii
    (rev (str_lstrip (rev (str_lstrip (list_ascii_of_string s))))).

(** [a, b = parts] *)
Definition unpack2 {A} (parts : list A) : outcome (A * A) :=
  match parts with
  | [a; b] => Done (a, b)
  | _ => Failed (Builtin ValueError)
  end.

(** *** [validate_salary] (app.py, lines 60-65) *)

Definition isinstance_int (v : pyval) : bool :=
  match v with PyInt _ => true | _ => false end.

(** [a > b] *)
Definition py_gt (a b : pyval) : result bool :=
  match a, b with
  | PyInt x, PyInt y => Ok (x >? y)
  | PyStr s, PyStr t => Ok (String.ltb t s)
  | _, _ => Raise TypeError
  end.

Definition validate_salary (min_salary max_salary : pyval)
    : result (pyval * pyval) :=
  if negb (isinstance_int min_salary && isinstance_int max_salary)
  then Raise ValueError
  else
    above ← py_gt min_salary max_salary;
    if above : bool then Raise ValueError
    else Ok (min_salary, max_salary).

(** *** [validate_experience] (app.py, lines 67-74) *)

Definition validate_experience (exp : pyval) : result Z :=
  try_except_TypeError_ValueError
    (exp ← py_int exp;
     if exp <? 0 then Raise ValueError else Ok exp)
    (Raise ValueError).

(** *** [format_skills] (app.py, lines 77-78) *)

(** [f"{s.skill_group} ({s.skill_level.name})"], also the label of a
    skill in the two multiselects (lines 98 and 190). *)
Definition skill_label (s : Skill.t) : outcome string :=
  name ← py_name (Skill.skill_level s);
  Done (py_str (Skill.skill_group s) +:+ " (" +:+ name +:+ ")").

Definition format_skills (skills : list Skill.t) : outcome string :=
  labels ← mapM skill_label skills;
  Done (String.concat ", " labels).

(** *** The skill loop of the two forms (lines 128-141 and 223-234) *)

(** [session.query(Skill).filter(Skill.skill_group == skill_name,
    Skill.skill_level == level).first()] over the rows of the skills
    table, taken in the order the store returns them. *)
Definition query_skill_first (catalog : list Skill.t) (skill_name : string)
    (level : SkillLevel) : option Skill.t :=
  find (fun s => py_eq (Skill.skill_group s) (PyStr skill_name)
                 && py_eq (Skill.skill_level s) (PySkillLevel level))
    catalog.

(** The first three statements of an iteration: the group name and the
    level that [skill_str] spells. *)
Definition parse_skill_label (skill_str : string)
    : outcome (string * SkillLevel) :=
  '(skill_name, level_str) ← unpack2 (split_space_paren skill_str);
  let level_str := drop_last level_str in
  level ← SkillLevel_by_name (upper level_str);
  Done (skill_name, level).

(** One iteration: the skill that [skill_str] selects. *)
Definition resolve_skill (catalog : list Skill.t) (skill_str : string)
    : outcome Skill.t :=
  '(skill_name, level) ← parse_skill_label skill_str;
  match query_skill_first catalog skill_name level with
  | Some skill => Done skill
  | None => Failed (Builtin ValueError)
  end.

(** [if not selected: raise ValueError] and the loop that appends the
    resolved skills. *)
Definition resolve_skills (catalog : list Skill.t) (selected : list string)
    : outcome (list Skill.t) :=
  if bool_decide (selected = []) then Failed (Builtin ValueError)
  else mapM (resolve_skill catalog) selected.

(** *** The candidate form (app.py, lines 104-141): the [Candidate]
    that is handed to [session.add].  Its primary key is assigned by the
    store. *)
Definition new_candidate_from_form (catalog : list Skill.t)
    (username : string) (total_experience : pyval)
    (pref_location_str : pyval) (salary_min salary_max : pyval)
    (career_pref_str : pyval) (selected_skills : list string)
    : outcome Candidate.t :=
  total_experience ← lift (validate_experience total_experience);
  smin ← lift (py_int salary_min);
  smax ← lift (py_int salary_max);
  '(salary_min, salary_max) ← lift (validate_salary (PyInt smin) (PyInt smax));
  pref_location ← lift (LocationType_by_value pref_location_str);
  career_pref ← lift (CareerPreference_by_value career_pref_str);
  skills ← resolve_skills catalog selected_skills;
  Done {| Candidate.id := PyNone;
          Candidate.username := PyStr (str_strip username);
          Candidate.total_experience := PyInt total_experience;
          Candidate.preferred_location := PyLocationType pref_location;
          Candidate.expected_salary_min := salary_min;
          Candidate.expected_salary_max := salary_max;
          Candidate.career_preference := PyCareerPreference career_pref;
          Candidate.skills := skills |}.

(** *** The job form (app.py, lines 197-234) *)
Definition new_job_from_form (catalog : list Skill.t)
    (title : string) (req_exp : pyval) (location_str : pyval)
    (salary_min salary_max : pyval) (availability_str : pyval)
    (career_pref_str : pyval) (required_skills : list string)
    : outcome Job.t :=
  req_exp ← lift (validate_experience req_exp);
  smin ← lift (py_int salary_min);
  smax ← lift (py_int salary_max);
  '(salary_min, salary_max) ← lift (validate_salary (PyInt smin) (PyInt smax));
  location_type ← lift (LocationType_by_value location_str);
  availability ← lift (Availability_by_value availability_str);
  career_pref ← lift (CareerPreference_by_value career_pref_str);
  skills ← resolve_skills catalog required_skills;
  Done {| Job.id := PyNone;
          Job.title := PyStr (str_strip title);
          Job.required_experience := PyInt req_exp;
          Job.location_type := PyLocationType location_type;
          Job.salary_min := salary_min;
          Job.salary_max := salary_max;
          Job.availability := PyAvailability availability;
          Job.career_preference := PyCareerPreference career_pref;
          Job.skills := skills |}.

(** The two handlers after [session.commit()]: the matches shown for
    the object just created (lines 147-157 and 240-250). *)
Definition candidate_form_matches (catalog : list Skill.t) (jobs : list Job.t)
    (username : string) (total_experience : pyval)
    (pref_location_str : pyval) (salary_min salary_max : pyval)
    (career_pref_str : pyval) (selected_skills : list string)
    : outcome (list (Job.t * spec_float)) :=
  new_candidate ← new_candidate_from_form catalog username total_experience
                    pref_location_str salary_min salary_max career_pref_str
                    selected_skills;
  lift (top_job_matches jobs new_candidate).

Definition job_form_matches (catalog : list Skill.t)
    (candidates : list Candidate.t)
    (title : string) (req_exp : pyval) (location_str : pyval)
    (salary_min salary_max : pyval) (availability_str : pyval)
    (career_pref_str : pyval) (required_skills : list string)
    : outcome (list (Candidate.t * spec_float)) :=
  new_job ← new_job_from_form catalog title req_exp location_str
              salary_min salary_max availability_str career_pref_str
              required_skills;
  lift (top_candidate_matches new_job candidates).

(** A group name that contains the separator [" ("]. *)
Fixpoint has_space_paren (s : string) : bool :=
  match s with
  | EmptyString => false
  | String a s' =>
      match s' with
      | String b _ =>
          (Ascii.eqb a " " && Ascii.eqb b "(") || has_space_paren s'
      | EmptyString => false
      end
  end.

(** A catalogue skill whose label can be read back: a [str] group
    without [" ("] and a [SkillLevel] member. *)
Definition selectable (s : Skill.t) : bool :=
  match Skill.skill_group s, Skill.skill_level s with
  | PyStr g, PySkillLevel _ => negb (has_space_paren g)
  | _, _ => false
  end.

(** [job] with another list of skills. *)
Definition Job_with_skills (job : Job.t) (skills : list Skill.t) : Job.t :=
  {| Job.id := Job.id job; Job.title := Job.title job;
     Job.required_experience := Job.required_experience job;
     Job.location_type := Job.location_type job;
     Job.salary_min := Job.salary_min job;
     Job.salary_max := Job.salary_max job;
     Job.availability := Job.availability job;
     Job.career_preference := Job.career_preference job;
     Job.skills := skills |}.

Definition Candidate_with_skills (candidate : Candidate.t)
    (skills : list Skill.t) : Candidate.t :=
  {| Candidate.id := Candidate.id candidate;
     Candidate.username := Candidate.username candidate;
     Candidate.total_experience := Candidate.total_experience candidate;
     Candidate.preferred_location := Candidate.preferred_location candidate;
     Candidate.expected_salary_min := Candidate.expected_salary_min candidate;
     Candidate.expected_salary_max := Candidate.expected_salary_max candidate;
     Candidate.career_preference := Candidate.career_preference candidate;
     Candidate.skills := skills |}.

(** Sample catalogue and rows. *)
Definition c_ansi_expert : Skill.t :=
  {| Skill.id := PyInt 5; Skill.skill_type := PyStr "Programming";
     Skill.skill_group := PyStr "C (ANSI)";
     Skill.skill_level := PySkillLevel EXPERT |}.

Definition sample_catalog : list Skill.t :=
  [python_beginner; python_advanced; python_expert; sql_intermediate;
   c_ansi_expert].

(** A job row whose [salary_max] column is NULL. *)
Definition open_salary_job : Job.t :=
  {| Job.id := PyInt 4; Job.title := PyStr "Contractor";
     Job.required_experience := PyInt 2;
     Job.location_type := PyLocationType REMOTE;
     Job.salary_min := PyInt 50000; Job.salary_max := PyNone;
     Job.availability := PyAvailability IMMEDIATE;
     Job.career_preference := PyCareerPreference LATERAL_MOVE;
     Job.skills := [sql_intermediate] |}.

(** The labels offered by the multiselect, picked from selectable rows. *)
Definition picked_from (catalog : list Skill.t) (selected : list string)
    (picked : list Skill.t) : Prop :=
  Forall2 (fun label s => s ∈ catalog /\ selectable s = true
                          /\ skill_label s = Done label) selected picked.

(** ** Tactics for case analysis on floats *)

Ltac sf_destruct :=
  repeat match goal with
         | x : spec_float |- _ => destruct x as [[] | [] | | [] ? ?]
         end.

Ltac sf_compare :=
  unfold float_lt, float_le, float_eqb, SFltb, SFleb, SFeqb, SFcompare;
  change (Pos.compare_cont Eq) with Pos.compare;
  repeat match goal with
         | |- context [Z.compare ?a ?b] =>
             destruct (Z.compare_spec a b); simpl
         | |- context [Pos.compare ?a ?b] =>
             destruct (Pos.compare_spec a b); simpl
         end.

Ltac sf_order :=
  sf_destruct; simpl; try done;
  sf_compare; intros; subst;
  try done; try lia; try (by left); try (by right).

(** * Properties *)

(** ** Examples of the builtins *)

Example int_of_str_examples :
  int_of_str " 12 " = Some 12 /\ int_of_str "-5" = Some (-5)
  /\ int_of_str "1_000" = Some 1000 /\ int_of_str "five" = None
  /\ int_of_str "" = None /\ int_of_str "1__0" = None
  /\ int_of_str "- 5" = None /\ int_of_str "3.5" = None.
Proof. repeat split. Qed.

Example int_of_str_spaces :
  int_of_str (String (ascii_of_nat 160) "5") = Some 5
  /\ int_of_str (String "5" (String (ascii_of_nat 133) "")) = Some 5
  /\ int_of_str (String (ascii_of_nat 28) "5") = None
  /\ int_of_str (String (ascii_of_nat 233) "5") = None.
Proof. repeat split. Qed.

Example int_of_str_digit_limit :
  int_of_str (string_of_list_ascii (repeat "1"%char 4300)) <> None
  /\ int_of_str (string_of_list_ascii (repeat "0"%char 4301)) = None
  /\ int_of_str (string_of_list_ascii ("-"%char :: repeat "1"%char 4301))
     = None.
Proof. split; [| split]; vm_compute; congruence. Qed.

Example py_int_examples :
  py_int (PyInt 7) = Ok 7 /\ py_int (PyStr "five") = Raise ValueError
  /\ py_int PyNone = Raise TypeError
  /\ py_int (PyLocationType HYBRID) = Raise TypeError.
Proof. repeat split. Qed.

Example py_eq_str_member :
  py_eq (PyStr "Hybrid") (PyLocationType HYBRID) = false
  /\ LocationType_value HYBRID = "Hybrid".
Proof. split; reflexivity. Qed.

Example py_sort_example :
  py_sort snd true
    [("a", Z2SF 1); ("b", Z2SF 3); ("c", Z2SF 1); ("d", Z2SF 3); ("e", Z2SF 2)]
  = [("b", Z2SF 3); ("d", Z2SF 3); ("e", Z2SF 2); ("a", Z2SF 1); ("c", Z2SF 1)].
Proof. reflexivity. Qed.

Example py_slice_to_examples :
  py_slice_to 2 [1; 2; 3] = [1; 2] /\ py_slice_to 5 [1; 2; 3] = [1; 2; 3]
  /\ py_slice_to 0 [1; 2; 3] = [] /\ py_slice_to (-1) [1; 2; 3] = [1; 2].
Proof. repeat split. Qed.

(** ** Constant sub-expressions of the score *)

Lemma ten_times_0_3 : int_mul_float 10 (float_literal 3 10) = Ok (Z2SF 3).
Proof. reflexivity. Qed.

Lemma minus_five_times_0_3 :
  int_mul_float (-5) (float_literal 3 10) = Ok (float_literal (-15) 10).
Proof. reflexivity. Qed.

Lemma ten_times_0_2 : int_mul_float 10 (float_literal 2 10) = Ok (Z2SF 2).
Proof. reflexivity. Qed.

Lemma minus_ten_times_0_2 :
  int_mul_float (-10) (float_literal 2 10) = Ok (Z2SF (-2)).
Proof. reflexivity. Qed.

Lemma ten_times_0_4 : int_mul_float 10 (float_literal 4 10) = Ok (Z2SF 4).
Proof. reflexivity. Qed.

Lemma five_times_0_4 : int_mul_float 5 (float_literal 4 10) = Ok (Z2SF 2).
Proof. reflexivity. Qed.

(** ** Experience *)

Lemma int_or_zero_PyInt z : int_or_zero (PyInt z) = Ok z.
Proof. reflexivity. Qed.

Lemma int_or_zero_non_numeric v :
  non_numeric v = true ->
  int_or_zero v = Raise TypeError \/ int_or_zero v = Raise ValueError.
Proof.
  destruct v as [| z | s | l | l | c | a]; simpl; try discriminate; auto.
  intros Hs. apply bool_decide_eq_true in Hs.
  right. unfold int_or_zero. simpl. by rewrite Hs.
Qed.

Lemma int_or_zero_cases v :
  (exists z, int_or_zero v = Ok z)
  \/ int_or_zero v = Raise TypeError \/ int_or_zero v = Raise ValueError.
Proof.
  destruct v as [| z | s | l | l | c | a]; simpl; eauto.
  unfold int_or_zero. simpl. destruct (int_of_str s); eauto.
Qed.

(** C6: with an [int] in both experience columns, the experience
    sub-score is 10*0.3 = 3.0 when the candidate's total experience is
    at least the job's required experience, and -5*0.3 = -1.5
    otherwise. *)
Theorem exp_score_numeric (job : Job.t) (candidate : Candidate.t) (a b : Z) :
  Candidate.total_experience candidate = PyInt a ->
  Job.required_experience job = PyInt b ->
  (b <= a -> exp_score job candidate = Ok (Z2SF 3))
  /\ (a < b -> exp_score job candidate = Ok (float_literal (-15) 10)).
Proof.
  intros Ha Hb. unfold exp_score. rewrite Ha, Hb. simpl.
  split; intros Hab.
  - replace (a >=? b) with true by (symmetry; apply Z.geb_le; lia).
    reflexivity.
  - replace (a >=? b) with false
      by (symmetry; rewrite Z.geb_leb; apply Z.leb_gt; lia).
    reflexivity.
Qed.

Lemma exp_score_numeric_witness :
  exp_score sample_job sample_candidate = Ok (Z2SF 3).
Proof.
  apply (exp_score_numeric sample_job sample_candidate 5 3);
    [reflexivity | reflexivity | lia].
Defined.

(** C2, as stated, fails: a candidate whose [total_experience] is
    [None] is read as having 0 years, which meets a job that requires 0
    years, and scores 3.0 instead of the penalty. *)
Lemma exp_score_None_not_penalty :
  Candidate.total_experience no_experience_candidate = PyNone
  /\ exp_score hybrid_job no_experience_candidate = Ok (Z2SF 3)
  /\ exp_score hybrid_job no_experience_candidate
     <> Ok (float_literal (-15) 10).
Proof. split; [reflexivity | split; [reflexivity | discriminate]]. Qed.

(** ** Location and salary *)

Lemma py_eq_true a b : py_eq a b = true <-> a = b.
Proof. apply bool_decide_eq_true. Qed.

Lemma py_eq_false a b : py_eq a b = false <-> a <> b.
Proof. apply bool_decide_eq_false. Qed.

(** The string ["Hybrid"] is equal to no enumeration member, so on
    [LocationType] members the middle branch of [location_score] is
    never taken. *)
Lemma location_score_members (job : Job.t) (candidate : Candidate.t) l1 l2 :
  Job.location_type job = PyLocationType l1 ->
  Candidate.preferred_location candidate = PyLocationType l2 ->
  location_score job candidate = if decide (l1 = l2) then 10 else 0.
Proof.
  intros H1 H2. unfold location_score, py_in2. rewrite H1, H2.
  destruct (decide (l1 = l2)) as [-> | Hne].
  - by replace (py_eq _ _) with true by (symmetry; by apply py_eq_true).
  - replace (py_eq (PyLocationType l1) (PyLocationType l2)) with false
      by (symmetry; apply py_eq_false; congruence).
    reflexivity.
Qed.

(** On strings the middle branch is live. *)
Lemma location_score_strings (job : Job.t) (candidate : Candidate.t) :
  Job.location_type job = PyStr "Hybrid" ->
  Candidate.preferred_location candidate = PyStr "On-site" ->
  location_score job candidate = 5.
Proof. intros H1 H2. unfold location_score, py_in2. by rewrite H1, H2. Qed.

(** C1, on the code: a HYBRID job and an ON_SITE candidate get location
    score 0 (not 5); with salaries disjoint and the candidate's minimum
    within 20000 of the job's maximum the combined sub-score is
    (0+5)*0.05 = 0.25 (not 0.5). *)
Theorem location_score_hybrid_on_site :
  Job.location_type hybrid_job = PyLocationType HYBRID
  /\ Candidate.preferred_location on_site_candidate = PyLocationType ON_SITE
  /\ location_score hybrid_job on_site_candidate = 0
  /\ salary_score hybrid_job on_site_candidate = Ok 5
  /\ location_salary_score hybrid_job on_site_candidate
     = Ok (float_literal 25 100)
  /\ float_literal 25 100 <> float_literal 5 10.
Proof. repeat split; discriminate. Qed.

Lemma salary_score_ints (job : Job.t) (candidate : Candidate.t)
    (cmin cmax jmin jmax : Z) :
  Candidate.expected_salary_min candidate = PyInt cmin ->
  Candidate.expected_salary_max candidate = PyInt cmax ->
  Job.salary_min job = PyInt jmin ->
  Job.salary_max job = PyInt jmax ->
  salary_score job candidate
  = Ok (if (cmin <=? jmax) && (jmin <=? cmax) then 10
        else if cmin <=? jmax + 20000 then 5 else 0).
Proof.
  intros Hcmin Hcmax Hjmin Hjmax.
  unfold salary_score, salary_overlap, py_ge.
  rewrite Hcmin, Hcmax, Hjmin, Hjmax. simpl.
  destruct (cmin <=? jmax); simpl; [destruct (jmin <=? cmax) |]; done.
Qed.

(** C5: with [int] salaries, the salary score is 10 when the ranges
    overlap (candidate minimum <= job maximum and candidate maximum >=
    job minimum), else 5 when the candidate's minimum is at most the
    job's maximum plus 20000, else 0; the combined sub-score is
    (location + salary) * 0.05. *)
Theorem salary_score_spec (job : Job.t) (candidate : Candidate.t)
    (cmin cmax jmin jmax : Z) :
  Candidate.expected_salary_min candidate = PyInt cmin ->
  Candidate.expected_salary_max candidate = PyInt cmax ->
  Job.salary_min job = PyInt jmin ->
  Job.salary_max job = PyInt jmax ->
  let salary :=
    if (cmin <=? jmax) && (jmin <=? cmax) then 10
    else if cmin <=? jmax + 20000 then 5 else 0 in
  salary_score job candidate = Ok salary
  /\ location_salary_score job candidate
     = int_mul_float (location_score job candidate + salary)
         (float_literal 5 100).
Proof.
  intros Hcmin Hcmax Hjmin Hjmax salary.
  pose proof (salary_score_ints job candidate _ _ _ _ Hcmin Hcmax Hjmin Hjmax)
    as Hs.
  split; [exact Hs |].
  unfold location_salary_score. by rewrite Hs.
Qed.

Lemma salary_score_spec_witness :
  salary_score sample_job sample_candidate = Ok 10
  /\ location_salary_score sample_job sample_candidate = Ok (Z2SF 1).
Proof.
  exact (salary_score_spec sample_job sample_candidate
           90000 110000 80000 120000 eq_refl eq_refl eq_refl eq_refl).
Defined.

(** ** The end-to-end example *)

(** C7: the job (3 years, ON_SITE, 80000-120000, UPWARD_MOBILITY,
    {(Python, ADVANCED)}) against the candidate (5 years, ON_SITE,
    90000-110000, UPWARD_MOBILITY, {(Python, ADVANCED)}) scores skill
    4.0, experience 3.0, career 2.0, location-salary 1.0, total 10.0,
    whatever the fields the claim leaves open. *)
Theorem end_to_end_example
    (jid title availability cid username sid1 sid2 stype1 stype2 : pyval) :
  let skill i t :=
    {| Skill.id := i; Skill.skill_type := t;
       Skill.skill_group := PyStr "Python";
       Skill.skill_level := PySkillLevel ADVANCED |} in
  let job :=
    {| Job.id := jid; Job.title := title;
       Job.required_experience := PyInt 3;
       Job.location_type := PyLocationType ON_SITE;
       Job.salary_min := PyInt 80000; Job.salary_max := PyInt 120000;
       Job.availability := availability;
       Job.career_preference := PyCareerPreference UPWARD_MOBILITY;
       Job.skills := [skill sid1 stype1] |} in
  let candidate :=
    {| Candidate.id := cid; Candidate.username := username;
       Candidate.total_experience := PyInt 5;
       Candidate.preferred_location := PyLocationType ON_SITE;
       Candidate.expected_salary_min := PyInt 90000;
       Candidate.expected_salary_max := PyInt 110000;
       Candidate.career_preference := PyCareerPreference UPWARD_MOBILITY;
       Candidate.skills := [skill sid2 stype2] |} in
  skill_score job candidate = Ok (Z2SF 4)
  /\ exp_score job candidate = Ok (Z2SF 3)
  /\ career_score job candidate = Ok (Z2SF 2)
  /\ location_salary_score job candidate = Ok (Z2SF 1)
  /\ calculate_matching_score job candidate = Ok (Z2SF 10).
Proof.
  intros skill job candidate.
  assert (Hs : skill_score job candidate = Ok (Z2SF 4))
    by (vm_compute; reflexivity).
  assert (He : exp_score job candidate = Ok (Z2SF 3)) by reflexivity.
  assert (Hc : career_score job candidate = Ok (Z2SF 2)) by reflexivity.
  assert (Hl : location_salary_score job candidate = Ok (Z2SF 1)) by reflexivity.
  split; [exact Hs |]. split; [exact He |]. split; [exact Hc |].
  split; [exact Hl |].
  unfold calculate_matching_score. rewrite Hs, He, Hc, Hl. reflexivity.
Qed.

(** ** Rounding never produces a NaN from a non-negative mantissa *)

Lemma shr_m_record_of_loc m l : shr_m (shr_record_of_loc m l) = m.
Proof. by destruct l as [| []]. Qed.

Lemma shr_1_bounds mrs :
  0 <= shr_m mrs -> 0 <= shr_m (shr_1 mrs) <= shr_m mrs.
Proof.
  destruct mrs as [m r s]. simpl.
  destruct m as [| [p | p |] | p]; simpl; lia.
Qed.

Lemma iter_pos_shr_1_bounds p mrs :
  0 <= shr_m mrs -> 0 <= shr_m (SpecFloat.iter_pos shr_1 p mrs) <= shr_m mrs.
Proof.
  revert mrs. induction p as [p IH | p IH |]; intros mrs Hm; simpl.
  - pose proof (shr_1_bounds mrs Hm) as H1.
    pose proof (IH (shr_1 mrs) (proj1 H1)) as H2.
    pose proof (IH _ (proj1 H2)) as H3. lia.
  - pose proof (IH mrs Hm) as H2.
    pose proof (IH _ (proj1 H2)) as H3. lia.
  - by apply shr_1_bounds.
Qed.

Lemma shr_fexp_bounds m e l :
  0 <= m ->
  0 <= shr_m (fst (shr_fexp prec emax m e l)) <= m
  /\ (snd (shr_fexp prec emax m e l) = e
      \/ snd (shr_fexp prec emax m e l) = fexp prec emax (Zdigits2 m + e)).
Proof.
  intros Hm. unfold shr_fexp, shr.
  destruct (fexp prec emax (Zdigits2 m + e) - e) as [| p | p] eqn:Hn; simpl;
    rewrite ?shr_m_record_of_loc; try (split; [lia | by left]).
  split.
  - pose proof (iter_pos_shr_1_bounds p (shr_record_of_loc m l)) as H.
    rewrite shr_m_record_of_loc in H. by apply H.
  - right. lia.
Qed.

Lemma round_nearest_even_bounds m l :
  m <= round_nearest_even m l <= m + 1.
Proof.
  unfold round_nearest_even. destruct l as [| []]; try lia.
  destruct (Z.even m); lia.
Qed.

(** Rounding a non-negative mantissa gives a zero, a finite number or an
    infinity of the requested sign, never a NaN. *)
Lemma binary_round_aux_cases sx mx ex lx :
  0 <= mx ->
  binary_round_aux prec emax sx mx ex lx = S754_zero sx
  \/ (exists m e, binary_round_aux prec emax sx mx ex lx = S754_finite sx m e)
  \/ binary_round_aux prec emax sx mx ex lx = S754_infinity sx.
Proof.
  intros Hm. unfold binary_round_aux.
  pose proof (shr_fexp_bounds mx ex lx Hm) as [H1 _].
  destruct (shr_fexp prec emax mx ex lx) as [mrs' e']. simpl in H1.
  pose proof (round_nearest_even_bounds (shr_m mrs') (loc_of_shr_record mrs')) as H2.
  set (m1 := round_nearest_even _ _) in *.
  assert (Hm1 : 0 <= m1) by lia.
  pose proof (shr_fexp_bounds m1 e' loc_Exact Hm1) as [H3 _].
  destruct (shr_fexp prec emax m1 e' loc_Exact) as [mrs'' e'']. simpl in H3.
  destruct (shr_m mrs'') as [| p | p]; [by left | | lia].
  destruct (e'' <=? emax - prec); eauto.
Qed.

Lemma digits2_pos_size p : digits2_pos p = Pos.size p.
Proof. induction p as [p IH | p IH |]; simpl; by rewrite ?IH. Qed.

Lemma Zdigits2_bound m k :
  0 <= k -> 0 <= m < 2 ^ k -> Zdigits2 m <= k.
Proof.
  intros Hk Hm. destruct m as [| p | p]; simpl; [lia | | lia].
  rewrite digits2_pos_size.
  pose proof (Pos.size_le p) as Hle.
  destruct (Z_lt_le_dec k (Z.pos (Pos.size p))) as [Hlt |]; [| done].
  exfalso.
  assert (2 ^ k <= Z.pos p); [| lia].
  assert (Hp : (2 ^ Pos.size p <= p~0)%positive) by exact Hle.
  apply Pos2Z.pos_le_pos in Hp. rewrite Pos2Z.inj_pow in Hp.
  replace (Z.pos p~0) with (2 * Z.pos p) in Hp by lia.
  assert (2 ^ (k + 1) <= 2 ^ Z.pos (Pos.size p)) by (apply Z.pow_le_mono_r; lia).
  rewrite Z.pow_add_r in * by lia. lia.
Qed.

Lemma fexp_le x b : x - prec <= b -> 3 - emax - prec <= b -> fexp prec emax x <= b.
Proof. unfold fexp, emin. lia. Qed.

(** Rounding a mantissa below [2^120] at a non-positive exponent never
    overflows. *)
Lemma binary_round_aux_no_overflow sx mx ex lx :
  0 <= mx < 2 ^ 120 -> ex <= 0 ->
  binary_round_aux prec emax sx mx ex lx <> S754_infinity sx.
Proof.
  intros Hm Hex. unfold binary_round_aux.
  pose proof (shr_fexp_bounds mx ex lx (proj1 Hm)) as [H1 He'].
  destruct (shr_fexp prec emax mx ex lx) as [mrs' e']. simpl in H1, He'.
  pose proof (round_nearest_even_bounds (shr_m mrs') (loc_of_shr_record mrs')) as H2.
  set (m1 := round_nearest_even _ _) in *.
  assert (Hm1 : 0 <= m1) by lia.
  pose proof (shr_fexp_bounds m1 e' loc_Exact Hm1) as [H3 He''].
  destruct (shr_fexp prec emax m1 e' loc_Exact) as [mrs'' e'']. simpl in H3, He''.
  assert (Hd : Zdigits2 mx <= 120) by (apply Zdigits2_bound; lia).
  assert (He'b : e' <= 67).
  { destruct He' as [-> | ->]; [lia |]. apply fexp_le; unfold prec, emax; lia. }
  assert (Hd1 : Zdigits2 m1 <= 121).
  { apply Zdigits2_bound; [lia |]. split; [lia |].
    replace (2 ^ 121) with (2 * 2 ^ 120) by reflexivity. lia. }
  assert (He''b : e'' <= 135).
  { destruct He'' as [-> | ->]; [lia |]. apply fexp_le; unfold prec, emax; lia. }
  destruct (shr_m mrs'') as [| p | p]; try discriminate.
  replace (e'' <=? emax - prec) with true; [discriminate |].
  symmetry. apply Z.leb_le. unfold prec, emax. lia.
Qed.

(** ** Conversion of integers, products and sums *)

Lemma pos_iter_xO p d : Z.pos (Pos.iter xO p d) = Z.pos p * 2 ^ Z.pos d.
Proof.
  induction d as [| d IH] using Pos.peano_ind.
  - simpl. lia.
  - rewrite Pos.iter_succ, Pos2Z.inj_succ, Z.pow_succ_r by lia.
    rewrite Pos2Z.inj_xO, IH. lia.
Qed.

Lemma binary_round_cases sx mx ex :
  binary_round prec emax sx mx ex = S754_zero sx
  \/ (exists m e, binary_round prec emax sx mx ex = S754_finite sx m e)
  \/ binary_round prec emax sx mx ex = S754_infinity sx.
Proof.
  unfold binary_round. destruct (shl_align _ _ _) as [mz ez].
  apply binary_round_aux_cases. lia.
Qed.

Lemma binary_normalize_not_nan m e szero :
  is_nan (binary_normalize prec emax m e szero) = false.
Proof.
  destruct m as [| p | p]; simpl; [done | |].
  - by destruct (binary_round_cases false p e) as [-> | [(? & ? & ->) | ->]].
  - by destruct (binary_round_cases true p e) as [-> | [(? & ? & ->) | ->]].
Qed.

Lemma Z2SF_nonneg z : 0 <= z -> is_nonneg (Z2SF z) = true.
Proof.
  intros Hz. unfold Z2SF. destruct z as [| p | p]; simpl; [done | | lia].
  by destruct (binary_round_cases false p 0) as [-> | [(? & ? & ->) | ->]].
Qed.

Lemma Z2SF_no_overflow z :
  0 <= z < 2 ^ 67 -> Z2SF z <> S754_infinity false.
Proof.
  intros Hz. unfold Z2SF. destruct z as [| p | p]; simpl; [done | | lia].
  unfold binary_round, shl_align.
  set (ex' := fexp prec emax (Z.pos (digits2_pos p) + 0)).
  assert (Hex' : -52 <= ex') by (unfold ex', fexp, emin, prec, emax; lia).
  destruct (ex' - 0) as [| d | d] eqn:Hd;
    try (apply binary_round_aux_no_overflow; [| lia];
         split; [lia |];
         apply Z.lt_trans with (2 ^ 67); [lia | reflexivity]).
  apply binary_round_aux_no_overflow; [| lia].
  rewrite pos_iter_xO. split; [lia |].
  assert (2 ^ Z.pos d <= 2 ^ 52) by (apply Z.pow_le_mono_r; lia).
  replace (2 ^ 120) with (2 ^ 67 * 2 ^ 53) by reflexivity.
  assert (2 ^ 52 < 2 ^ 53) by reflexivity.
  nia.
Qed.

(** An [int] in [0, 2^67) converts to a float without overflow. *)
Lemma float_of_int_small z :
  0 <= z < 2 ^ 67 ->
  exists x, float_of_int z = Ok x /\ is_nonneg x = true /\ is_finite x = true.
Proof.
  intros Hz. unfold float_of_int.
  pose proof (Z2SF_nonneg z (proj1 Hz)) as Hn.
  pose proof (Z2SF_no_overflow z Hz) as Ho.
  destruct (Z2SF z) as [[] | [] | | [] m e]; try done; eauto.
Qed.

Lemma float_of_int_nonneg z x :
  0 <= z -> float_of_int z = Ok x ->
  is_nonneg x = true /\ is_finite x = true.
Proof.
  intros Hz. unfold float_of_int.
  pose proof (Z2SF_nonneg z Hz) as Hn.
  destruct (Z2SF z) as [[] | [] | | [] m e]; try done; by intros [= <-].
Qed.

Lemma float_mul_nonneg x m e :
  is_nonneg x = true -> is_finite x = true ->
  is_nonneg (float_mul x (S754_finite false m e)) = true.
Proof.
  destruct x as [[] | [] | | [] mx ex]; try done. intros _ _.
  unfold float_mul, SFmul.
  by destruct (binary_round_aux_cases (xorb false false)
                 (Z.pos (mx * m)) (ex + e) loc_Exact ltac:(lia))
    as [-> | [(? & ? & ->) | ->]].
Qed.

Lemma is_nonneg_not_nan x : is_nonneg x = true -> is_nan x = false.
Proof. by destruct x as [[] | [] | | [] ? ?]. Qed.

Lemma is_finite_not_nan x : is_finite x = true -> is_nan x = false.
Proof. by destruct x as [[] | [] | | [] ? ?]. Qed.

Lemma is_nonneg_float_le x : is_nonneg x = true -> float_le (Z2SF 0) x.
Proof. by destruct x as [[] | [] | | [] ? ?]. Qed.

(** Adding a finite float to a float that is not a NaN never gives a
    NaN. *)
Lemma float_add_not_nan x y :
  is_nan x = false -> is_finite y = true -> is_nan (float_add x y) = false.
Proof.
  destruct x as [[] | [] | | [] mx ex], y as [[] | [] | | [] my ey];
    try done; intros _ _; unfold float_add, SFadd;
    apply binary_normalize_not_nan.
Qed.

(** ** The order on floats that are not NaN *)

Lemma float_lt_asym a b : float_lt a b = true -> float_lt b a = false.
Proof. revert a b. intros a b. sf_order. Qed.

Lemma float_lt_negtrans x y z :
  is_nan y = false -> float_lt x z = true ->
  float_lt x y = true \/ float_lt y z = true.
Proof. sf_order. Qed.

Lemma float_eqb_not_lt x y v :
  float_eqb x v = true -> float_eqb y v = true -> float_lt x y = false.
Proof. sf_order. Qed.

Lemma float_not_lt_le a b :
  is_nan a = false -> is_nan b = false ->
  float_lt a b = false -> float_le b a.
Proof. sf_order. Qed.

Lemma float_lt_le a b : float_lt a b = true -> float_le a b.
Proof. sf_order. Qed.

Lemma float_le_trans a b c : float_le a b -> float_le b c -> float_le a c.
Proof. sf_order. Qed.

Section SortFacts.
Context {A : Type} (key : A -> spec_float).

Let R (a b : A) : Prop := float_le (key b) (key a).

Lemma sort_insert_Permutation reverse x l :
  Permutation (sort_insert key reverse x l) (x :: l).
Proof.
  induction l as [| y l IH]; simpl; [done |].
  destruct (sort_before key reverse y x); [| done].
  rewrite IH. apply perm_swap.
Qed.

Lemma py_sort_Permutation reverse l :
  Permutation (py_sort key reverse l) l.
Proof.
  induction l as [| x l IH]; simpl; [done |].
  rewrite sort_insert_Permutation. by constructor.
Qed.

Lemma sort_insert_sorted x l :
  is_nan (key x) = false ->
  Forall (fun y => is_nan (key y) = false) l ->
  StronglySorted R l ->
  StronglySorted R (sort_insert key true x l).
Proof.
  intros Hx Hl Hs. induction Hs as [| y l Hs IH Hy]; simpl.
  - repeat constructor.
  - apply Forall_cons in Hl as [Hny Hl].
    unfold sort_before. destruct (float_lt (key x) (key y)) eqn:Hlt.
    + constructor; [by apply IH |].
      rewrite sort_insert_Permutation. constructor; [| done].
      by apply float_lt_le.
    + assert (Hxy : R x y) by by apply float_not_lt_le.
      constructor; [by constructor |].
      constructor; [done |].
      eapply Forall_impl; [exact Hy |].
      intros z Hz. unfold R in *. by eapply float_le_trans.
Qed.

Lemma py_sort_sorted l :
  Forall (fun y => is_nan (key y) = false) l ->
  StronglySorted R (py_sort key true l).
Proof.
  induction 1 as [| x l Hx Hl IH]; simpl; [constructor |].
  apply sort_insert_sorted; [done | | done].
  by rewrite py_sort_Permutation.
Qed.

Lemma sort_insert_stable reverse v x l :
  filter (fun m => float_eqb (key m) v = true) (sort_insert key reverse x l)
  = filter (fun m => float_eqb (key m) v = true) (x :: l).
Proof.
  induction l as [| y l IH]; simpl; [done |].
  unfold sort_before.
  destruct (if reverse then float_lt (key x) (key y)
            else float_lt (key y) (key x)) eqn:Hlt; [| done].
  rewrite (filter_cons _ y), IH, !filter_cons.
  destruct (decide (float_eqb (key y) v = true)) as [Hy |]; [| done].
  destruct (decide (float_eqb (key x) v = true)) as [Hx |]; [| done].
  exfalso. destruct reverse.
  - by rewrite (float_eqb_not_lt _ _ _ Hx Hy) in Hlt.
  - by rewrite (float_eqb_not_lt _ _ _ Hy Hx) in Hlt.
Qed.

Lemma py_sort_stable reverse v l :
  filter (fun m => float_eqb (key m) v = true) (py_sort key reverse l)
  = filter (fun m => float_eqb (key m) v = true) l.
Proof.
  induction l as [| x l IH]; simpl; [done |].
  by rewrite sort_insert_stable, !filter_cons, IH.
Qed.
End SortFacts.

Lemma scored_mapM {E} (score : E -> result spec_float) entities matches :
  scored score entities matches ->
  mapM (fun e => s ← score e; Ok (e, s)) entities = Ok matches.
Proof.
  induction 1 as [| e [e' s] entities matches (He & Hs) _ IH]; [done |].
  simpl in *. subst e'. rewrite Hs. simpl. by rewrite IH.
Qed.

Lemma py_slice_to_nonneg {A} k (l : list A) :
  0 <= k -> py_slice_to k l = take (Z.to_nat k) l.
Proof. intros Hk. unfold py_slice_to. by rewrite (proj2 (Z.leb_le 0 k) Hk). Qed.

Lemma rank_nil {E} (score : E -> result spec_float) top_k :
  rank score [] top_k = Ok [].
Proof.
  unfold rank, py_slice_to. simpl. by destruct (0 <=? top_k), (Z.to_nat top_k).
Qed.

Lemma rank_zero {E} (score : E -> result spec_float) entities matches :
  scored score entities matches -> rank score entities 0 = Ok [].
Proof. intros Hsc. unfold rank. by rewrite (scored_mapM _ _ _ Hsc). Qed.

(** The ranking of [matches] whose scores are not NaN. *)
Lemma rank_ranking {E} (score : E -> result spec_float) entities matches top_k :
  0 <= top_k ->
  scored score entities matches ->
  Forall (fun m => is_nan (snd m) = false) matches ->
  exists out, rank score entities top_k = Ok out /\ ranking_of matches top_k out.
Proof.
  intros Hk Hsc Hn. exists (take (Z.to_nat top_k) (py_sort snd true matches)).
  unfold rank. rewrite (scored_mapM _ _ _ Hsc). simpl.
  split; [by rewrite py_slice_to_nonneg |].
  exists (py_sort snd true matches).
  split; [done |].
  split; [by rewrite py_sort_Permutation |].
  split; [by apply py_sort_sorted |].
  intros v. apply py_sort_stable.
Qed.

(** ** Skills *)

Lemma elem_of_skill_pairs skills g l :
  (g, l) ∈ skill_pairs skills
  <-> exists s, s ∈ skills /\ Skill.skill_group s = g /\ Skill.skill_level s = l.
Proof.
  unfold skill_pairs. rewrite elem_of_list_to_set, list_elem_of_fmap.
  split.
  - intros (s & [= -> ->] & Hs). eauto.
  - intros (s & Hs & <- & <-). eauto.
Qed.

Lemma elem_of_skill_groups pairs g :
  g ∈ skill_groups pairs <-> exists l, (g, l) ∈ pairs.
Proof.
  unfold skill_groups. rewrite elem_of_map. split.
  - intros ([g' l] & -> & H). eauto.
  - intros (l & H). by exists (g, l).
Qed.

Lemma size_list_to_set_le `{Countable A} (l : list A) :
  (size (list_to_set l : gset A) <= length l)%nat.
Proof.
  induction l as [| x l IH].
  - rewrite list_to_set_nil, size_empty. simpl. lia.
  - rewrite list_to_set_cons, size_union_alt, size_singleton. simpl.
    assert (Hsub : (size (list_to_set l ∖ {[x]} : gset A)
            <= size (list_to_set l : gset A))%nat)
      by (by apply subseteq_size, subseteq_difference_l).
    lia.
Qed.

Lemma size_skill_pairs skills :
  (size (skill_pairs skills) <= length skills)%nat.
Proof.
  unfold skill_pairs.
  etransitivity; [apply size_list_to_set_le |]. by rewrite length_fmap.
Qed.

Lemma size_skill_groups pairs :
  (size (skill_groups pairs) <= size pairs)%nat.
Proof.
  unfold skill_groups, set_map.
  etransitivity; [apply size_list_to_set_le |]. by rewrite length_fmap.
Qed.

Lemma full_matches_bounds job candidate :
  0 <= full_matches job candidate <= Z.of_nat (length (Job.skills job)).
Proof.
  unfold full_matches, py_len, job_skills.
  pose proof (size_skill_pairs (Job.skills job)).
  assert (Hsub : (size (skill_pairs (Job.skills job) ∩ candidate_skills candidate)
          <= size (skill_pairs (Job.skills job)))%nat)
    by apply subseteq_size, intersection_subseteq_l.
  lia.
Qed.

Lemma group_matches_bounds job candidate :
  0 <= group_matches job candidate <= Z.of_nat (length (Job.skills job)).
Proof.
  unfold group_matches, py_len, job_skills.
  pose proof (size_skill_pairs (Job.skills job)).
  pose proof (size_skill_groups (skill_pairs (Job.skills job))).
  assert (Hsub : (size (skill_groups (skill_pairs (Job.skills job))
                  ∩ skill_groups (candidate_skills candidate))
          <= size (skill_groups (skill_pairs (Job.skills job))))%nat)
    by apply subseteq_size, intersection_subseteq_l.
  lia.
Qed.

Lemma skill_raw_eq job candidate :
  skill_raw job candidate
  = 5 * (full_matches job candidate + group_matches job candidate).
Proof. unfold skill_raw, partial_matches. lia. Qed.

Lemma float_literal_0_4 :
  float_literal 4 10 = S754_finite false 7205759403792794 (-54).
Proof. reflexivity. Qed.

Lemma skill_score_nonneg job candidate f :
  skill_score job candidate = Ok f -> is_nonneg f = true.
Proof.
  unfold skill_score, int_mul_float.
  destruct (float_of_int (skill_raw job candidate)) as [x | e] eqn:Hx;
    simpl; [| done].
  intros [= <-]. rewrite float_literal_0_4.
  apply float_of_int_nonneg in Hx as [Hn Hf]; [by apply float_mul_nonneg |].
  rewrite skill_raw_eq.
  pose proof (full_matches_bounds job candidate).
  pose proof (group_matches_bounds job candidate). lia.
Qed.

Lemma skill_score_returns job candidate :
  Z.of_nat (length (Job.skills job)) <= sys_maxsize ->
  exists f, skill_score job candidate = Ok f.
Proof.
  intros Hlen. unfold skill_score, int_mul_float.
  destruct (float_of_int_small (skill_raw job candidate)) as (x & -> & _).
  - rewrite skill_raw_eq.
    pose proof (full_matches_bounds job candidate).
    pose proof (group_matches_bounds job candidate).
    unfold sys_maxsize in Hlen.
    assert (2 ^ 67 = 16 * 2 ^ 63) by reflexivity. lia.
  - simpl. eauto.
Qed.

(** ** The skill counts of the code are those of the specification *)

Lemma py_len_intersection_list_to_set `{Countable A} (l k : list A) :
  py_len (list_to_set l ∩ list_to_set k : gset A) = count_common l k.
Proof.
  unfold py_len, count_common. f_equal.
  rewrite <- (size_list_to_set (C := gset A)) by apply NoDup_remove_dups.
  f_equal. apply set_eq. intros x.
  rewrite elem_of_intersection, !elem_of_list_to_set, elem_of_remove_dups.
  by rewrite list_elem_of_intersection.
Qed.

Lemma skill_groups_skill_pairs skills :
  skill_groups (skill_pairs skills) = list_to_set (groups_of skills).
Proof.
  apply set_eq. intros g. unfold skill_groups, skill_pairs, groups_of.
  rewrite elem_of_map, elem_of_list_to_set, list_elem_of_fmap. split.
  - intros ([g' l] & -> & Hp). apply elem_of_list_to_set in Hp.
    apply list_elem_of_fmap in Hp as (s & [= -> ->] & Hs). eauto.
  - intros (s & -> & Hs). exists (Skill.skill_group s, Skill.skill_level s).
    split; [done |]. apply elem_of_list_to_set, list_elem_of_fmap. eauto.
Qed.

Lemma full_matches_eq_spec job candidate :
  full_matches job candidate = full_matches_spec job candidate.
Proof. apply py_len_intersection_list_to_set. Qed.

Lemma group_matches_eq_spec job candidate :
  group_matches job candidate = group_matches_spec job candidate.
Proof.
  unfold group_matches, job_skills, candidate_skills.
  rewrite !skill_groups_skill_pairs. apply py_len_intersection_list_to_set.
Qed.

Lemma count_common_one `{EqDecision A} (l k : list A) p :
  (forall q, q ∈ l /\ q ∈ k <-> q = p) -> count_common l k = 1.
Proof.
  intros H. unfold count_common.
  assert (Hnd : NoDup (remove_dups (list_intersection l k)))
    by apply NoDup_remove_dups.
  assert (Hin : forall q, q ∈ remove_dups (list_intersection l k) <-> q = p).
  { intros q. by rewrite elem_of_remove_dups, list_elem_of_intersection. }
  destruct (remove_dups (list_intersection l k)) as [| x [| y r]].
  - exfalso. by apply (not_elem_of_nil p), Hin.
  - done.
  - exfalso. apply NoDup_cons in Hnd as [Hx _]. apply Hx.
    assert (x = p) as -> by (apply Hin; left).
    assert (y = p) as -> by (apply Hin; right; left). left.
Qed.

Lemma count_common_zero `{EqDecision A} (l k : list A) :
  (forall q, ~ (q ∈ l /\ q ∈ k)) -> count_common l k = 0.
Proof.
  intros H. unfold count_common.
  destruct (remove_dups (list_intersection l k)) as [| x r] eqn:Hr; [done |].
  exfalso. apply (H x).
  rewrite <- list_elem_of_intersection, <- elem_of_remove_dups, Hr. left.
Qed.

(** C3: the skill sub-score is (full_matches*10 + partial_matches*5)*0.4,
    where full_matches is the number of distinct (skill_group,
    skill_level) pairs that the job's and the candidate's skills have in
    common and partial_matches is the number of distinct skill groups
    they have in common minus full_matches, with no correction when a
    group spans several levels (two levels of one group matched exactly
    give (2*10 - 1*5)*0.4 = 6.0); one shared pair and nothing else gives
    4.0; one shared group at differing levels and no exact match gives
    2.0 (two such groups give 4.0). *)
Theorem skill_score_formula (job : Job.t) (candidate : Candidate.t) :
  let full := full_matches_spec job candidate in
  let partial := group_matches_spec job candidate - full in
  full_matches job candidate = full
  /\ partial_matches job candidate = partial
  /\ skill_score job candidate
     = int_mul_float (full * 10 + partial * 5) (float_literal 4 10)
  /\ (forall p, only_common_pair job candidate p ->
        only_common_group job candidate p.1 ->
        skill_score job candidate = Ok (Z2SF 4))
  /\ (forall g, no_common_pair job candidate ->
        only_common_group job candidate g ->
        skill_score job candidate = Ok (Z2SF 2))
  /\ skill_score two_level_job two_level_candidate = Ok (Z2SF 6)
  /\ skill_score two_group_job two_group_candidate = Ok (Z2SF 4).
Proof.
  intros full partial.
  pose proof (full_matches_eq_spec job candidate) as Hf.
  pose proof (group_matches_eq_spec job candidate) as Hg.
  assert (Hs : skill_score job candidate
               = int_mul_float (full * 10 + partial * 5) (float_literal 4 10)).
  { unfold skill_score, skill_raw, partial_matches. by rewrite Hf, Hg. }
  split; [exact Hf |].
  split; [unfold partial_matches; by rewrite Hf, Hg |].
  split; [exact Hs |].
  split; [| split; [| split; vm_compute; reflexivity]].
  - intros p Hp Hgp. rewrite Hs. unfold partial, full.
    unfold full_matches_spec, group_matches_spec.
    by rewrite (count_common_one _ _ p Hp), (count_common_one _ _ p.1 Hgp).
  - intros g Hp Hgp. rewrite Hs. unfold partial, full.
    unfold full_matches_spec, group_matches_spec.
    by rewrite (count_common_zero _ _ Hp), (count_common_one _ _ g Hgp).
Qed.

Lemma skill_score_formula_witness :
  skill_score hybrid_job on_site_candidate = Ok (Z2SF 2).
Proof.
  apply (proj1 (proj2 (proj2 (proj2 (proj2
           (skill_score_formula hybrid_job on_site_candidate)))))
           (PyStr "Python")).
  - intros q [Hj Hc]. unfold pairs_of in Hj, Hc. simpl in Hj, Hc.
    apply list_elem_of_singleton in Hj, Hc. congruence.
  - intros h. unfold groups_of. simpl. rewrite !list_elem_of_singleton.
    split; [by intros [-> _] | by intros ->].
Defined.

(** C10: the raw skill score full_matches*10 + partial_matches*5 equals
    5*(full_matches + |groups(J) ∩ groups(C)|) and is non-negative,
    also when partial_matches is negative (as it is, -1, for one group
    matched exactly at two levels); hence the skill sub-score is never
    below 0, and it is produced whenever the job's skill list has a
    length a Python list can have. *)
Theorem skill_raw_nonneg (job : Job.t) (candidate : Candidate.t) :
  skill_raw job candidate
  = 5 * (full_matches job candidate + group_matches job candidate)
  /\ 0 <= skill_raw job candidate
  /\ (forall f, skill_score job candidate = Ok f -> float_le (Z2SF 0) f)
  /\ (Z.of_nat (length (Job.skills job)) <= sys_maxsize ->
      exists f, skill_score job candidate = Ok f /\ float_le (Z2SF 0) f)
  /\ partial_matches two_level_job two_level_candidate = -1
  /\ skill_raw two_level_job two_level_candidate = 15.
Proof.
  pose proof (full_matches_bounds job candidate) as Hf.
  pose proof (group_matches_bounds job candidate) as Hg.
  split; [apply skill_raw_eq |].
  split; [rewrite skill_raw_eq; lia |].
  split; [intros f Hs; by apply is_nonneg_float_le, (skill_score_nonneg job candidate) |].
  split; [| split; vm_compute; reflexivity].
  intros Hlen. destruct (skill_score_returns job candidate Hlen) as [f Hs].
  exists f. split; [done |].
  by apply is_nonneg_float_le, (skill_score_nonneg job candidate).
Qed.

Lemma skill_raw_nonneg_witness :
  exists f, skill_score two_level_job two_level_candidate = Ok f
            /\ float_le (Z2SF 0) f.
Proof.
  apply (proj1 (proj2 (proj2 (proj2
           (skill_raw_nonneg two_level_job two_level_candidate))))).
  vm_compute. discriminate.
Defined.

(** ** Non-interference *)

Lemma same_but_skill_type_pairs l l' :
  Forall2 same_but_skill_type l l' -> skill_pairs l = skill_pairs l'.
Proof.
  intros H. unfold skill_pairs. f_equal.
  induction H as [| s s' l l' (_ & Hg & Hl) _ IH]; [done |].
  by rewrite !fmap_cons, Hg, Hl, IH.
Qed.

(** C9: two jobs that differ only in [availability] and in the
    [skill_type] of their skills, and two candidates that differ only
    in the [skill_type] of their skills, get the same result from the
    scorer (value or exception). *)
Theorem score_ignores_skill_type_and_availability
    (j j' : Job.t) (c c' : Candidate.t) :
  job_low_eq j j' -> candidate_low_eq c c' ->
  calculate_matching_score j c = calculate_matching_score j' c'.
Proof.
  intros (_ & _ & Hre & Hlt & Hsmin & Hsmax & Hcp & Hsk)
         (_ & _ & Hte & Hpl & Hemin & Hemax & Hccp & Hcsk).
  apply same_but_skill_type_pairs in Hsk, Hcsk.
  unfold calculate_matching_score, skill_score, skill_raw, partial_matches,
    group_matches, full_matches, job_skills, candidate_skills, exp_score,
    career_score, location_salary_score, location_score, salary_score,
    salary_overlap.
  by rewrite Hre, Hlt, Hsmin, Hsmax, Hcp, Hsk, Hte, Hpl, Hemin, Hemax, Hccp, Hcsk.
Qed.

(** ** Results are never NaN *)

Lemma exp_score_cases job candidate :
  exp_score job candidate = Ok (Z2SF 3)
  \/ exp_score job candidate = Ok (float_literal (-15) 10).
Proof.
  unfold exp_score.
  destruct (int_or_zero_cases (Candidate.total_experience candidate))
    as [[a ->] | [-> | ->]]; simpl; auto.
  destruct (int_or_zero_cases (Job.required_experience job))
    as [[b ->] | [-> | ->]]; simpl; auto.
  destruct (a >=? b); auto.
Qed.

Lemma career_score_cases job candidate :
  career_score job candidate = Ok (Z2SF 2)
  \/ career_score job candidate = Ok (Z2SF (-2)).
Proof. unfold career_score. destruct (py_eq _ _); auto. Qed.

Lemma location_score_cases job candidate :
  location_score job candidate = 0 \/ location_score job candidate = 5
  \/ location_score job candidate = 10.
Proof.
  unfold location_score. destruct (py_eq _ _); auto. destruct (py_in2 _ _ _); auto.
Qed.

Lemma salary_score_cases job candidate s :
  salary_score job candidate = Ok s -> s = 0 \/ s = 5 \/ s = 10.
Proof.
  unfold salary_score.
  destruct (salary_overlap job candidate) as [[] | e]; simpl; try done.
  - intros [= <-]. auto.
  - destruct (py_add _ _) as [bound | e]; simpl; try done.
    destruct (py_le _ _) as [[] | e]; simpl; try done; intros [= <-]; auto.
Qed.

Lemma location_salary_score_finite job candidate f :
  location_salary_score job candidate = Ok f -> is_finite f = true.
Proof.
  unfold location_salary_score.
  destruct (salary_score job candidate) as [s | e] eqn:Hs; simpl; [| done].
  apply salary_score_cases in Hs.
  destruct (location_score_cases job candidate) as [-> | [-> | ->]],
    Hs as [-> | [-> | ->]]; by intros [= <-].
Qed.

Lemma calculate_matching_score_not_nan job candidate f :
  calculate_matching_score job candidate = Ok f -> is_nan f = false.
Proof.
  unfold calculate_matching_score.
  destruct (skill_score job candidate) as [s | ?] eqn:Hs; simpl; [| done].
  destruct (exp_score job candidate) as [e | ?] eqn:He; simpl; [| done].
  destruct (career_score job candidate) as [c | ?] eqn:Hc; simpl; [| done].
  destruct (location_salary_score job candidate) as [l | ?] eqn:Hl;
    simpl; [| done].
  intros [= <-].
  apply skill_score_nonneg, is_nonneg_not_nan in Hs.
  apply location_salary_score_finite in Hl.
  assert (Hfe : is_finite e = true).
  { destruct (exp_score_cases job candidate) as [H | H];
      rewrite H in He; by injection He as <-. }
  assert (Hfc : is_finite c = true).
  { destruct (career_score_cases job candidate) as [H | H];
      rewrite H in Hc; by injection Hc as <-. }
  by repeat apply float_add_not_nan.
Qed.

(** ** No exception on the documented input domain *)

Lemma is_nonneg_int_inv v : is_nonneg_int v = true -> exists z, v = PyInt z.
Proof. destruct v; try done. eauto. Qed.

Lemma range_ordered_inv lo hi :
  range_ordered lo hi = true -> exists a b, lo = PyInt a /\ hi = PyInt b.
Proof. destruct lo, hi; try done. eauto. Qed.

Lemma valid_skills_length skills :
  valid_skills skills = true -> Z.of_nat (length skills) <= sys_maxsize.
Proof.
  unfold valid_skills. intros H.
  apply andb_true_iff in H as [_ H]. by apply Z.leb_le.
Qed.

Lemma location_salary_score_returns job candidate cmin cmax jmin jmax :
  Candidate.expected_salary_min candidate = PyInt cmin ->
  Candidate.expected_salary_max candidate = PyInt cmax ->
  Job.salary_min job = PyInt jmin ->
  Job.salary_max job = PyInt jmax ->
  exists f, location_salary_score job candidate = Ok f.
Proof.
  intros H1 H2 H3 H4.
  pose proof (salary_score_ints job candidate _ _ _ _ H1 H2 H3 H4) as Hs.
  unfold location_salary_score. rewrite Hs. simpl.
  apply salary_score_cases in Hs.
  destruct (location_score_cases job candidate) as [-> | [-> | ->]],
    Hs as [-> | [-> | ->]]; by eexists.
Qed.

(** ** Non-numeric experience *)

Lemma scorer_returns_with_int_salaries (job : Job.t) (candidate : Candidate.t)
    (cmin cmax jmin jmax : Z) (e : spec_float) :
  Candidate.expected_salary_min candidate = PyInt cmin ->
  Candidate.expected_salary_max candidate = PyInt cmax ->
  Job.salary_min job = PyInt jmin ->
  Job.salary_max job = PyInt jmax ->
  Z.of_nat (length (Job.skills job)) <= sys_maxsize ->
  exp_score job candidate = Ok e ->
  exists sk c ls,
    skill_score job candidate = Ok sk
    /\ career_score job candidate = Ok c
    /\ location_salary_score job candidate = Ok ls
    /\ calculate_matching_score job candidate
       = Ok (float_add (float_add (float_add sk e) c) ls).
Proof.
  intros H1 H2 H3 H4 Hlen He.
  destruct (skill_score_returns job candidate Hlen) as [sk Hsk].
  destruct (location_salary_score_returns job candidate _ _ _ _ H1 H2 H3 H4)
    as [ls Hls].
  assert (Hc : exists c, career_score job candidate = Ok c)
    by (destruct (career_score_cases job candidate) as [-> | ->]; eauto).
  destruct Hc as [c Hc]. exists sk, c, ls.
  unfold calculate_matching_score. by rewrite Hsk, He, Hc, Hls.
Qed.

(** C2, amended: when either experience value is non-numeric
    ([int(...)] raises [TypeError] or [ValueError] on it), the
    experience sub-score is the penalty -5*0.3 = -1.5 and no exception
    is raised by the scorer, which returns the sum with that penalty
    (the salaries being ints, as in the data model); a missing value
    ([None]) is read as 0 years and compared like any other number. *)
Theorem exp_score_non_numeric (job : Job.t) (candidate : Candidate.t) :
  (non_numeric (Candidate.total_experience candidate) = true
   \/ non_numeric (Job.required_experience job) = true ->
   exp_score job candidate = Ok (float_literal (-15) 10)
   /\ (forall cmin cmax jmin jmax,
         Candidate.expected_salary_min candidate = PyInt cmin ->
         Candidate.expected_salary_max candidate = PyInt cmax ->
         Job.salary_min job = PyInt jmin ->
         Job.salary_max job = PyInt jmax ->
         Z.of_nat (length (Job.skills job)) <= sys_maxsize ->
         exists sk c ls,
           skill_score job candidate = Ok sk
           /\ career_score job candidate = Ok c
           /\ location_salary_score job candidate = Ok ls
           /\ calculate_matching_score job candidate
              = Ok (float_add
                      (float_add (float_add sk (float_literal (-15) 10)) c)
                      ls)))
  /\ (forall b, Candidate.total_experience candidate = PyNone ->
        Job.required_experience job = PyInt b ->
        exp_score job candidate
        = Ok (if b <=? 0 then Z2SF 3 else float_literal (-15) 10))
  /\ (forall a, Job.required_experience job = PyNone ->
        Candidate.total_experience candidate = PyInt a ->
        exp_score job candidate
        = Ok (if 0 <=? a then Z2SF 3 else float_literal (-15) 10))
  /\ (Candidate.total_experience candidate = PyNone ->
      Job.required_experience job = PyNone ->
      exp_score job candidate = Ok (Z2SF 3)).
Proof.
  split; [| unfold exp_score; repeat split].
  - intros Hnn.
    assert (He : exp_score job candidate = Ok (float_literal (-15) 10)).
    { unfold exp_score. destruct Hnn as [Hc | Hj].
      - apply int_or_zero_non_numeric in Hc. by destruct Hc as [-> | ->].
      - apply int_or_zero_non_numeric in Hj.
        destruct (int_or_zero_cases (Candidate.total_experience candidate))
          as [[z ->] | [-> | ->]]; try reflexivity.
        by destruct Hj as [-> | ->]. }
    split; [exact He |].
    intros cmin cmax jmin jmax H1 H2 H3 H4 Hlen.
    by apply (scorer_returns_with_int_salaries job candidate
                cmin cmax jmin jmax).
  - intros b -> ->. simpl. rewrite Z.geb_leb. by destruct (b <=? 0).
  - intros a -> ->. simpl. rewrite Z.geb_leb. by destruct (0 <=? a).
  - by intros -> ->.
Qed.

Lemma exp_score_non_numeric_witness :
  exp_score sample_job malformed_candidate = Ok (float_literal (-15) 10)
  /\ exists sk c ls,
       skill_score sample_job malformed_candidate = Ok sk
       /\ career_score sample_job malformed_candidate = Ok c
       /\ location_salary_score sample_job malformed_candidate = Ok ls
       /\ calculate_matching_score sample_job malformed_candidate
          = Ok (float_add
                  (float_add (float_add sk (float_literal (-15) 10)) c) ls).
Proof.
  destruct (proj1 (exp_score_non_numeric sample_job malformed_candidate)
              (or_introl eq_refl)) as [He Hs].
  split; [exact He |].
  apply (Hs 60000 100000 80000 120000); try reflexivity.
  vm_compute. discriminate.
Defined.

Lemma calculate_matching_score_returns job candidate :
  valid_job job = true -> valid_candidate candidate = true ->
  exists f, calculate_matching_score job candidate = Ok f.
Proof.
  unfold valid_job, valid_candidate. rewrite !andb_true_iff.
  intros (((((Hre & _) & Hjs) & _) & _) & Hjsk) ((((Hte & _) & Hcs) & _) & _).
  apply is_nonneg_int_inv in Hre as [b Hre], Hte as [a Hte].
  apply range_ordered_inv in Hjs as (jmin & jmax & Hjmin & Hjmax).
  apply range_ordered_inv in Hcs as (cmin & cmax & Hcmin & Hcmax).
  apply valid_skills_length in Hjsk.
  destruct (skill_score_returns job candidate Hjsk) as [s Hs].
  destruct (exp_score_cases job candidate) as [He | He];
    destruct (career_score_cases job candidate) as [Hc | Hc];
    destruct (location_salary_score_returns job candidate _ _ _ _
                Hcmin Hcmax Hjmin Hjmax) as [l Hl];
    unfold calculate_matching_score; rewrite Hs, He, Hc, Hl; simpl; eauto.
Qed.

Lemma scored_exists {E} (score : E -> result spec_float) entities :
  Forall (fun e => exists f, score e = Ok f) entities ->
  exists matches, scored score entities matches.
Proof.
  induction 1 as [| e entities (f & Hf) _ [matches IH]].
  - exists []. constructor.
  - exists ((e, f) :: matches). by constructor.
Qed.

Lemma rank_returns {E} (score : E -> result spec_float) entities top_k :
  Forall (fun e => exists f, score e = Ok f) entities ->
  exists l, rank score entities top_k = Ok l.
Proof.
  intros H. apply scored_exists in H as [matches H].
  unfold rank. rewrite (scored_mapM _ _ _ H). simpl. eauto.
Qed.

(** C8: on the documented input domain (typed columns, valid
    enumeration members, non-empty skill lists) the scorer returns a
    float, and so does the ranking of any list of valid entities, for
    every [top_k] and in particular for the 5 of the two loops. *)
Theorem no_exception_on_valid_inputs :
  (forall job candidate,
     valid_job job = true -> valid_candidate candidate = true ->
     exists f, calculate_matching_score job candidate = Ok f)
  /\ (forall jobs new_candidate top_k,
        Forall (fun job => valid_job job = true) jobs ->
        valid_candidate new_candidate = true ->
        exists l,
          rank (fun job => calculate_matching_score job new_candidate)
            jobs top_k = Ok l)
  /\ (forall new_job candidates top_k,
        valid_job new_job = true ->
        Forall (fun candidate => valid_candidate candidate = true) candidates ->
        exists l,
          rank (fun candidate => calculate_matching_score new_job candidate)
            candidates top_k = Ok l)
  /\ (forall jobs new_candidate,
        Forall (fun job => valid_job job = true) jobs ->
        valid_candidate new_candidate = true ->
        exists l, top_job_matches jobs new_candidate = Ok l)
  /\ (forall new_job candidates,
        valid_job new_job = true ->
        Forall (fun candidate => valid_candidate candidate = true) candidates ->
        exists l, top_candidate_matches new_job candidates = Ok l).
Proof.
  assert (Hjobs : forall jobs new_candidate top_k,
             Forall (fun job => valid_job job = true) jobs ->
             valid_candidate new_candidate = true ->
             exists l,
               rank (fun job => calculate_matching_score job new_candidate)
                 jobs top_k = Ok l).
  { intros jobs c k Hj Hc. apply rank_returns.
    eapply Forall_impl; [exact Hj |]. intros j Hv. by apply calculate_matching_score_returns. }
  assert (Hcands : forall new_job candidates top_k,
             valid_job new_job = true ->
             Forall (fun candidate => valid_candidate candidate = true)
               candidates ->
             exists l,
               rank (fun candidate =>
                       calculate_matching_score new_job candidate)
                 candidates top_k = Ok l).
  { intros j cs k Hj Hc. apply rank_returns.
    eapply Forall_impl; [exact Hc |]. intros c Hv. by apply calculate_matching_score_returns. }
  split; [apply calculate_matching_score_returns |].
  split; [exact Hjobs |]. split; [exact Hcands |].
  split.
  - intros jobs c. apply Hjobs.
  - intros j cs. apply Hcands.
Qed.

Lemma no_exception_on_valid_inputs_witness :
  exists f, calculate_matching_score sample_job sample_candidate = Ok f.
Proof.
  apply (proj1 no_exception_on_valid_inputs sample_job sample_candidate);
    reflexivity.
Defined.

Lemma score_ignores_skill_type_and_availability_witness :
  calculate_matching_score sample_job sample_candidate
  = calculate_matching_score sample_job_relabelled sample_candidate.
Proof.
  apply (score_ignores_skill_type_and_availability
           sample_job sample_job_relabelled sample_candidate sample_candidate).
  - repeat split. by repeat constructor.
  - repeat split. by repeat constructor.
Defined.

(** ** Ranking *)

Lemma scored_not_nan {E} (score : E -> result spec_float) entities matches :
  (forall e f, score e = Ok f -> is_nan f = false) ->
  scored score entities matches ->
  Forall (fun m => is_nan (snd m) = false) matches.
Proof.
  intros Hscore. induction 1 as [| e m es ms (_ & Hs) _ IH]; constructor; eauto.
Qed.

(** C4: for every list of entities and every [top_k >= 0], when the
    scorer returns for every entity, the ranking returns the first
    [top_k] of the (entity, score) pairs sorted by descending score,
    pairs of equal score in input order; the two loops of the program
    take [top_k = 5]; [top_k = 0] gives the empty list, and so does an
    empty input. *)
Theorem rank_spec (top_k : Z) :
  0 <= top_k ->
  (forall new_candidate jobs matches,
     let score := fun job => calculate_matching_score job new_candidate in
     scored score jobs matches ->
     (exists out, rank score jobs top_k = Ok out
                  /\ ranking_of matches top_k out)
     /\ (exists out, top_job_matches jobs new_candidate = Ok out
                     /\ ranking_of matches 5 out)
     /\ rank score jobs 0 = Ok [])
  /\ (forall new_job candidates matches,
        let score := fun candidate =>
                       calculate_matching_score new_job candidate in
        scored score candidates matches ->
        (exists out, rank score candidates top_k = Ok out
                     /\ ranking_of matches top_k out)
        /\ (exists out, top_candidate_matches new_job candidates = Ok out
                        /\ ranking_of matches 5 out)
        /\ rank score candidates 0 = Ok [])
  /\ (forall new_candidate,
        rank (fun job => calculate_matching_score job new_candidate)
          [] top_k = Ok [])
  /\ (forall new_job,
        rank (fun candidate => calculate_matching_score new_job candidate)
          [] top_k = Ok []).
Proof.
  intros Hk. split; [| split; [| split; intros; apply rank_nil]].
  - intros c jobs matches score Hsc.
    assert (Hn : Forall (fun m => is_nan (snd m) = false) matches).
    { eapply scored_not_nan; [| exact Hsc].
      intros j f. apply calculate_matching_score_not_nan. }
    split; [by apply rank_ranking |].
    split; [by apply rank_ranking |].
    by eapply rank_zero.
  - intros j candidates matches score Hsc.
    assert (Hn : Forall (fun m => is_nan (snd m) = false) matches).
    { eapply scored_not_nan; [| exact Hsc].
      intros c f. apply calculate_matching_score_not_nan. }
    split; [by apply rank_ranking |].
    split; [by apply rank_ranking |].
    by eapply rank_zero.
Qed.

Lemma rank_spec_witness :
  exists out,
    rank (fun job => calculate_matching_score job sample_candidate)
      [hybrid_job; sample_job; two_level_job] 2 = Ok out
    /\ ranking_of
         [(hybrid_job, float_literal 35 10); (sample_job, Z2SF 10);
          (two_level_job, float_literal 525 100)] 2 out.
Proof.
  apply (proj1 (rank_spec 2 ltac:(lia)) sample_candidate
           [hybrid_job; sample_job; two_level_job]
           [(hybrid_job, float_literal 35 10); (sample_job, Z2SF 10);
            (two_level_job, float_literal 525 100)]).
  repeat constructor.
Defined.

(** * The form helpers, the handlers and more on the scorer *)

(** ** Validation helpers *)

(** X1: [validate_experience] returns [n] exactly when [int(exp)]
    is [n] and [n >= 0]; in every other case (a negative number, a text
    that is no integer, [None], any other object) it raises
    [ValueError], never [TypeError]. *)
Theorem validate_experience_spec (exp : pyval) :
  (forall n, validate_experience exp = Ok n <-> py_int exp = Ok n /\ 0 <= n)
  /\ ((forall n, validate_experience exp <> Ok n) ->
      validate_experience exp = Raise ValueError).
Proof.
  unfold validate_experience.
  destruct (py_int exp) as [z | []] eqn:Hint; simpl.
  - destruct (z <? 0) eqn:Hz; simpl.
    + apply Z.ltb_lt in Hz. split; [| done].
      intros n. split; [done |]. intros [[= <-] ?]. lia.
    + apply Z.ltb_ge in Hz. split.
      * intros n. split; [by intros [= <-] | by intros [[= <-] _]].
      * intros H. by destruct (H z).
  - split; [| done]. intros n. split; [done | by intros [? _]].
  - split; [| done]. intros n. split; [done | by intros [? _]].
  - exfalso. destruct exp as [| z | s | | | |]; simpl in Hint; try done.
    by destruct (int_of_str s).
Qed.

Lemma validate_experience_spec_witness :
  validate_experience (PyStr "x") = Raise ValueError.
Proof.
  apply (proj2 (validate_experience_spec (PyStr "x"))).
  intros n. discriminate.
Defined.

(** X2: [validate_salary] returns its two arguments unchanged exactly
    when both are ints with minimum <= maximum; in every other case it
    raises [ValueError], and never [TypeError]. *)
Theorem validate_salary_spec (min_salary max_salary : pyval) :
  (forall p, validate_salary min_salary max_salary = Ok p <->
     exists a b, min_salary = PyInt a /\ max_salary = PyInt b /\ a <= b
                 /\ p = (min_salary, max_salary))
  /\ ((forall p, validate_salary min_salary max_salary <> Ok p) ->
      validate_salary min_salary max_salary = Raise ValueError).
Proof.
  unfold validate_salary.
  destruct min_salary as [| a | s | | | |], max_salary as [| b | t | | | |];
    simpl; try (split; [intros p; split; [done | by intros (? & ? & ? & ? & _)] | done]).
  rewrite Z.gtb_ltb. destruct (b <? a) eqn:Hab; simpl.
  - apply Z.ltb_lt in Hab. split; [| done].
    intros p. split; [done |]. intros (x & y & [= <-] & [= <-] & ? & _). lia.
  - apply Z.ltb_ge in Hab. split.
    + intros p. split; [intros [= <-]; by exists a, b |].
      by intros (? & ? & _ & _ & _ & ->).
    + intros H. by destruct (H (PyInt a, PyInt b)).
Qed.

Lemma validate_salary_spec_witness :
  validate_salary (PyInt 5) (PyInt 4) = Raise ValueError.
Proof.
  apply (proj2 (validate_salary_spec (PyInt 5) (PyInt 4))).
  intros p. discriminate.
Defined.

Lemma validate_salary_ordered lo hi p :
  validate_salary lo hi = Ok p -> p = (lo, hi) /\ range_ordered lo hi = true.
Proof.
  unfold validate_salary.
  destruct lo as [| a | | | | |], hi as [| b | | | | |]; simpl; try done.
  rewrite Z.gtb_ltb. destruct (b <? a) eqn:Hab; simpl; [done |].
  intros [= <-]. split; [done |]. by apply Z.leb_le, Z.ltb_ge.
Qed.

Lemma validate_experience_nonneg exp n :
  validate_experience exp = Ok n -> 0 <= n.
Proof.
  unfold validate_experience.
  destruct (py_int exp) as [z | []]; simpl; try done.
  destruct (z <? 0) eqn:Hz; simpl; [done |].
  intros [= <-]. by apply Z.ltb_ge.
Qed.

Lemma validate_experience_PyInt n :
  0 <= n -> validate_experience (PyInt n) = Ok n.
Proof.
  intros Hn. unfold validate_experience. simpl.
  by rewrite (proj2 (Z.ltb_ge n 0) Hn).
Qed.


(** ** Exceptions of the scorer *)

Lemma py_le_raises a b e : py_le a b = Raise e -> e = TypeError.
Proof. destruct a, b; simpl; congruence. Qed.

Lemma py_add_raises a b e : py_add a b = Raise e -> e = TypeError.
Proof. destruct a, b; simpl; congruence. Qed.

Lemma salary_score_raises job candidate e :
  salary_score job candidate = Raise e -> e = TypeError.
Proof.
  unfold salary_score, salary_overlap, py_ge.
  repeat match goal with
         | |- context [py_le ?a ?b] =>
             let H := fresh "H" in
             destruct (py_le a b) as [[] | ?] eqn:H; simpl;
             try apply py_le_raises in H
         | |- context [py_add ?a ?b] =>
             let H := fresh "H" in
             destruct (py_add a b) as [? | ?] eqn:H; simpl;
             try apply py_add_raises in H
         end; congruence.
Qed.

Lemma score_returns_when_salary_does job candidate s :
  Z.of_nat (length (Job.skills job)) <= sys_maxsize ->
  salary_score job candidate = Ok s ->
  exists f, calculate_matching_score job candidate = Ok f.
Proof.
  intros Hlen Hs. destruct (skill_score_returns job candidate Hlen) as [sk Hsk].
  unfold calculate_matching_score, location_salary_score.
  rewrite Hsk, Hs. simpl. apply salary_score_cases in Hs.
  destruct (exp_score_cases job candidate) as [-> | ->];
    destruct (career_score_cases job candidate) as [-> | ->]; simpl;
    destruct (location_score_cases job candidate) as [-> | [-> | ->]],
      Hs as [-> | [-> | ->]]; by eexists.
Qed.

Lemma score_raises_when_salary_does job candidate e :
  Z.of_nat (length (Job.skills job)) <= sys_maxsize ->
  salary_score job candidate = Raise e ->
  calculate_matching_score job candidate = Raise TypeError.
Proof.
  intros Hlen He. destruct (skill_score_returns job candidate Hlen) as [sk Hsk].
  unfold calculate_matching_score, location_salary_score.
  rewrite Hsk, He, (salary_score_raises _ _ _ He). simpl.
  destruct (exp_score_cases job candidate) as [-> | ->];
    by destruct (career_score_cases job candidate) as [-> | ->].
Qed.

(** X3: for a job whose skill list has a length a list can have, the
    scorer returns exactly when the salary comparisons are defined, and
    otherwise raises [TypeError]; no value of the experience, location,
    career or skill attributes makes it raise. *)
Theorem calculate_matching_score_raises_TypeError
    (job : Job.t) (candidate : Candidate.t) :
  Z.of_nat (length (Job.skills job)) <= sys_maxsize ->
  ((exists s, salary_score job candidate = Ok s) ->
   exists f, calculate_matching_score job candidate = Ok f)
  /\ ((forall s, salary_score job candidate <> Ok s) ->
      calculate_matching_score job candidate = Raise TypeError).
Proof.
  intros Hlen. split.
  - intros [s Hs]. by eapply score_returns_when_salary_does.
  - intros Hs. destruct (salary_score job candidate) as [s | e] eqn:He.
    + by destruct (Hs s).
    + by eapply score_raises_when_salary_does.
Qed.

Lemma calculate_matching_score_raises_TypeError_witness :
  calculate_matching_score open_salary_job sample_candidate = Raise TypeError.
Proof.
  apply (proj2 (calculate_matching_score_raises_TypeError
                  open_salary_job sample_candidate ltac:(vm_compute; discriminate))).
  intros s. discriminate.
Defined.

(** ** More on the ranking *)

Lemma rank_raises {E} (score : E -> result spec_float) pre e post x top_k :
  Forall (fun e' => exists f, score e' = Ok f) pre ->
  score e = Raise x ->
  rank score (pre ++ e :: post) top_k = Raise x.
Proof.
  intros Hpre He. unfold rank.
  assert (Hm : mapM (fun e => s ← score e; Ok (e, s)) (pre ++ e :: post)
               = Raise x); [| by rewrite Hm].
  induction Hpre as [| e' pre [f Hf] _ IH]; simpl.
  - by rewrite He.
  - rewrite Hf. simpl. by rewrite IH.
Qed.

(** X4: when the scorer raises for an entity and returned for all
    the entities before it, the ranking raises that exception, whatever
    follows in the list and whatever [top_k] is. *)
Theorem rank_first_exception {E} (score : E -> result spec_float)
    (pre : list E) (e : E) (post : list E) (x : exn) (top_k : Z) :
  Forall (fun e' => exists f, score e' = Ok f) pre ->
  score e = Raise x ->
  rank score (pre ++ e :: post) top_k = Raise x.
Proof. apply rank_raises. Qed.

Lemma rank_first_exception_witness :
  rank (fun job => calculate_matching_score job sample_candidate)
    ([sample_job] ++ open_salary_job :: [hybrid_job]) 5 = Raise TypeError.
Proof.
  apply (rank_first_exception
           (fun job => calculate_matching_score job sample_candidate)
           [sample_job] open_salary_job [hybrid_job] TypeError 5).
  - constructor; [| constructor]. eexists. vm_compute. reflexivity.
  - vm_compute. reflexivity.
Defined.

Lemma rank_raises_TypeError {E} (score : E -> result spec_float)
    (bad : E -> Prop) entities top_k :
  Forall (fun e => (exists f, score e = Ok f) \/ score e = Raise TypeError)
    entities ->
  (forall e, bad e -> score e = Raise TypeError) ->
  Exists bad entities ->
  rank score entities top_k = Raise TypeError.
Proof.
  intros Hall Hbad Hex. unfold rank.
  assert (Hm : mapM (fun e => s ← score e; Ok (e, s)) entities
               = Raise TypeError); [| by rewrite Hm].
  induction Hall as [| e entities He _ IH]; [by inversion Hex |].
  simpl. destruct He as [[f Hf] | ->]; [| done].
  rewrite Hf. simpl. rewrite IH; [done |].
  inversion Hex as [? ? Hb | ]; subst; [| done].
  apply Hbad in Hb. congruence.
Qed.

Lemma score_cases_bounded job candidate :
  Z.of_nat (length (Job.skills job)) <= sys_maxsize ->
  (exists f, calculate_matching_score job candidate = Ok f)
  \/ calculate_matching_score job candidate = Raise TypeError.
Proof.
  intros Hlen. destruct (salary_score job candidate) as [s | e] eqn:Hs.
  - left. by eapply score_returns_when_salary_does.
  - right. by eapply score_raises_when_salary_does.
Qed.

(** X5: one job row without a [salary_max], anywhere in the list,
    makes the ranking of the jobs raise [TypeError]; so does one
    candidate row without an [expected_salary_min] for the ranking of
    the candidates. *)
Theorem ranking_fails_on_NULL_salary :
  (forall jobs new_candidate,
     Forall (fun job => Z.of_nat (length (Job.skills job)) <= sys_maxsize)
       jobs ->
     Exists (fun job => Job.salary_max job = PyNone) jobs ->
     top_job_matches jobs new_candidate = Raise TypeError)
  /\ (forall new_job candidates,
        Z.of_nat (length (Job.skills new_job)) <= sys_maxsize ->
        Exists (fun candidate =>
                  Candidate.expected_salary_min candidate = PyNone)
          candidates ->
        top_candidate_matches new_job candidates = Raise TypeError).
Proof.
  split.
  - intros jobs c Hlen Hex. unfold top_job_matches.
    apply (rank_raises_TypeError _ (fun job => Job.salary_max job = PyNone
             /\ Z.of_nat (length (Job.skills job)) <= sys_maxsize)).
    + eapply Forall_impl; [exact Hlen |]. intros j. apply score_cases_bounded.
    + intros j [Hnone Hj]. eapply score_raises_when_salary_does; [done |].
      unfold salary_score, salary_overlap. rewrite Hnone.
      by destruct (Candidate.expected_salary_min c).
    + rewrite Exists_exists in *. rewrite Forall_forall in Hlen.
      destruct Hex as (j & Hin & Hnone). exists j. auto.
  - intros j cs Hlen Hex. unfold top_candidate_matches.
    apply (rank_raises_TypeError _
             (fun c => Candidate.expected_salary_min c = PyNone)).
    + apply Forall_forall. intros c _. by apply score_cases_bounded.
    + intros c Hnone. eapply score_raises_when_salary_does; [done |].
      unfold salary_score, salary_overlap. by rewrite Hnone.
    + done.
Qed.

Lemma ranking_fails_on_NULL_salary_witness :
  top_job_matches [sample_job; open_salary_job; hybrid_job] sample_candidate
  = Raise TypeError.
Proof.
  apply (proj1 ranking_fails_on_NULL_salary).
  - constructor; [| constructor; [| constructor; [| constructor]]];
      vm_compute; discriminate.
  - apply Exists_cons_tl, Exists_cons_hd. reflexivity.
Defined.

(** ** The entities shown are the best ones *)

Lemma scored_length {E} (score : E -> result spec_float) entities matches :
  scored score entities matches -> length matches = length entities.
Proof. intros H. symmetry. by eapply Forall2_length. Qed.

Lemma rank_split {E} (score : E -> result spec_float) entities matches top_k :
  0 <= top_k ->
  (forall e f, score e = Ok f -> is_nan f = false) ->
  scored score entities matches ->
  exists out rest,
    rank score entities top_k = Ok out
    /\ Permutation matches (out ++ rest)
    /\ length out = (Z.to_nat top_k `min` length entities)%nat
    /\ forall a b, a ∈ out -> b ∈ rest -> float_le (snd b) (snd a).
Proof.
  intros Hk Hnan Hsc.
  pose proof (scored_not_nan score entities matches Hnan Hsc) as Hn.
  destruct (rank_ranking score entities matches top_k Hk Hsc Hn)
    as (out & Hrank & ranking & -> & Hperm & Hsorted & _).
  exists (take (Z.to_nat top_k) ranking), (drop (Z.to_nat top_k) ranking).
  split; [done |]. rewrite take_drop. split; [done |]. split.
  - rewrite length_take, <- (scored_length _ _ _ Hsc).
    by rewrite (Permutation_length Hperm).
  - intros a b Ha Hb. unfold sorted_desc in Hsorted.
    rewrite <- (take_drop (Z.to_nat top_k) ranking) in Hsorted.
    by apply (StronglySorted_app_1_elem_of _ _ _ a b Hsorted).
Qed.

(** X6: the ranking returns [min(top_k, number of entities)] pairs,
    and every pair it leaves out has a score at most that of every pair
    it returns. *)
Theorem rank_keeps_the_best {E} (score : E -> result spec_float)
    (entities : list E) (matches : list (E * spec_float)) (top_k : Z) :
  0 <= top_k ->
  (forall e f, score e = Ok f -> is_nan f = false) ->
  scored score entities matches ->
  exists out rest,
    rank score entities top_k = Ok out
    /\ Permutation matches (out ++ rest)
    /\ length out = (Z.to_nat top_k `min` length entities)%nat
    /\ forall a b, a ∈ out -> b ∈ rest -> float_le (snd b) (snd a).
Proof. apply rank_split. Qed.

Lemma rank_keeps_the_best_witness :
  exists out rest,
    rank (fun job => calculate_matching_score job sample_candidate)
      [hybrid_job; sample_job; two_level_job] 2 = Ok out
    /\ Permutation
         [(hybrid_job, float_literal 35 10); (sample_job, Z2SF 10);
          (two_level_job, float_literal 525 100)] (out ++ rest)
    /\ length out
       = (Z.to_nat 2 `min` length [hybrid_job; sample_job; two_level_job])%nat
    /\ forall a b, a ∈ out -> b ∈ rest -> float_le (snd b) (snd a).
Proof.
  apply (rank_keeps_the_best
           (fun job => calculate_matching_score job sample_candidate)
           [hybrid_job; sample_job; two_level_job]
           [(hybrid_job, float_literal 35 10); (sample_job, Z2SF 10);
            (two_level_job, float_literal 525 100)] 2).
  - lia.
  - intros e f. apply calculate_matching_score_not_nan.
  - constructor; [| constructor; [| constructor; [| constructor]]];
      (split; [reflexivity | vm_compute; reflexivity]).
Defined.


(** ** Skill lists as sets *)

Lemma skill_pairs_same_elements l l' :
  (forall s, s ∈ l <-> s ∈ l') -> skill_pairs l = skill_pairs l'.
Proof.
  intros H. apply set_eq. intros p. unfold skill_pairs.
  rewrite !elem_of_list_to_set, !list_elem_of_fmap.
  split; intros (s & -> & Hs); exists s; (split; [done | by apply H]).
Qed.

(** X7: the score does not change when the skills of the job or of
    the candidate are listed in another order or with repetitions. *)
Theorem score_reads_skills_as_sets (job : Job.t) (candidate : Candidate.t)
    (job_skills' candidate_skills' : list Skill.t) :
  (forall s, s ∈ Job.skills job <-> s ∈ job_skills') ->
  (forall s, s ∈ Candidate.skills candidate <-> s ∈ candidate_skills') ->
  calculate_matching_score (Job_with_skills job job_skills')
    (Candidate_with_skills candidate candidate_skills')
  = calculate_matching_score job candidate.
Proof.
  intros Hj Hc.
  apply skill_pairs_same_elements in Hj, Hc.
  unfold calculate_matching_score, skill_score, skill_raw, partial_matches,
    group_matches, full_matches, job_skills, candidate_skills, exp_score,
    career_score, location_salary_score, location_score, salary_score,
    salary_overlap. simpl. by rewrite Hj, Hc.
Qed.

Lemma score_reads_skills_as_sets_witness :
  calculate_matching_score
    (Job_with_skills two_level_job
       [python_expert; python_advanced; python_expert])
    (Candidate_with_skills two_level_candidate
       [python_advanced; python_expert])
  = calculate_matching_score two_level_job two_level_candidate.
Proof.
  apply (score_reads_skills_as_sets two_level_job two_level_candidate).
  - intros s. simpl. rewrite !elem_of_cons, !elem_of_nil. tauto.
  - intros s. simpl. rewrite !elem_of_cons, !elem_of_nil. tauto.
Defined.

(** ** No skill group in common *)

Lemma count_common_pos `{EqDecision A} (l k : list A) x :
  x ∈ l -> x ∈ k -> 1 <= count_common l k.
Proof.
  intros Hl Hk. unfold count_common.
  destruct (remove_dups (list_intersection l k)) as [| y r] eqn:Hr;
    [| simpl; lia].
  exfalso. apply (not_elem_of_nil x).
  rewrite <- Hr, elem_of_remove_dups, list_elem_of_intersection. done.
Qed.

Lemma count_common_nonneg `{EqDecision A} (l k : list A) :
  0 <= count_common l k.
Proof. unfold count_common. lia. Qed.

(** X8: without a skill group in common the skill sub-score is 0.0;
    a common group brings a raw skill score of at least 5, a common
    (group, level) pair at least 10. *)
Theorem skill_score_without_common_group (job : Job.t)
    (candidate : Candidate.t) :
  ((forall sj sc, sj ∈ Job.skills job -> sc ∈ Candidate.skills candidate ->
                  Skill.skill_group sj <> Skill.skill_group sc) ->
   skill_score job candidate = Ok (Z2SF 0))
  /\ (forall sj sc, sj ∈ Job.skills job -> sc ∈ Candidate.skills candidate ->
                    Skill.skill_group sj = Skill.skill_group sc ->
                    5 <= skill_raw job candidate)
  /\ (forall sj sc, sj ∈ Job.skills job -> sc ∈ Candidate.skills candidate ->
                    Skill.skill_group sj = Skill.skill_group sc ->
                    Skill.skill_level sj = Skill.skill_level sc ->
                    10 <= skill_raw job candidate).
Proof.
  rewrite skill_raw_eq, full_matches_eq_spec, group_matches_eq_spec.
  unfold full_matches_spec, group_matches_spec.
  split; [| split].
  - intros Hdis. unfold skill_score. rewrite skill_raw_eq.
    rewrite full_matches_eq_spec, group_matches_eq_spec.
    unfold full_matches_spec, group_matches_spec.
    rewrite !count_common_zero; [done | |].
    + intros g [Hj Hc]. unfold groups_of in Hj, Hc.
      apply list_elem_of_fmap in Hj as (sj & -> & Hj).
      apply list_elem_of_fmap in Hc as (sc & Heq & Hc).
      by apply (Hdis sj sc).
    + intros p [Hj Hc]. unfold pairs_of in Hj, Hc.
      apply list_elem_of_fmap in Hj as (sj & -> & Hj).
      apply list_elem_of_fmap in Hc as (sc & [= Heq _] & Hc).
      by apply (Hdis sj sc).
  - intros sj sc Hj Hc Hg.
    pose proof (count_common_nonneg (pairs_of (Job.skills job))
                  (pairs_of (Candidate.skills candidate))).
    assert (1 <= count_common (groups_of (Job.skills job))
                   (groups_of (Candidate.skills candidate))); [| lia].
    apply (count_common_pos _ _ (Skill.skill_group sj)); unfold groups_of.
    + apply list_elem_of_fmap. eauto.
    + apply list_elem_of_fmap. eauto.
  - intros sj sc Hj Hc Hg Hl.
    assert (1 <= count_common (groups_of (Job.skills job))
                   (groups_of (Candidate.skills candidate))).
    { apply (count_common_pos _ _ (Skill.skill_group sj)); unfold groups_of.
      - apply list_elem_of_fmap. eauto.
      - apply list_elem_of_fmap. eauto. }
    assert (1 <= count_common (pairs_of (Job.skills job))
                   (pairs_of (Candidate.skills candidate))); [| lia].
    apply (count_common_pos _ _
             (Skill.skill_group sj, Skill.skill_level sj)); unfold pairs_of.
    + apply list_elem_of_fmap. eauto.
    + apply list_elem_of_fmap. exists sc. by rewrite Hg, Hl.
Qed.

Lemma skill_score_without_common_group_witness :
  skill_score open_salary_job sample_candidate = Ok (Z2SF 0).
Proof.
  apply (proj1 (skill_score_without_common_group
                  open_salary_job sample_candidate)).
  intros sj sc Hj Hc. simpl in Hj, Hc.
  apply list_elem_of_singleton in Hj, Hc. by subst.
Defined.

(** ** Skill labels *)

Lemma split_space_paren_nonempty s : (1 <= length (split_space_paren s))%nat.
Proof.
  induction s as [| a s IH]; simpl; [lia |].
  destruct s as [| b rest]; [simpl; lia |].
  destruct (Ascii.eqb a " " && Ascii.eqb b "("); [simpl; lia |].
  destruct (split_space_paren (String b rest)); simpl in *; lia.
Qed.

Lemma length_cons_head a parts :
  (length parts <= length (cons_head a parts))%nat.
Proof. destruct parts; simpl; lia. Qed.

Lemma append_String a g x : String a g +:+ x = String a (g +:+ x).
Proof. reflexivity. Qed.

Lemma split_space_paren_sep rest :
  split_space_paren (String " " (String "(" rest))
  = "" :: split_space_paren rest.
Proof. reflexivity. Qed.

Lemma split_space_paren_other a b rest :
  Ascii.eqb a " " && Ascii.eqb b "(" = false ->
  split_space_paren (String a (String b rest))
  = cons_head a (split_space_paren (String b rest)).
Proof. intros H. cbn [split_space_paren]. by rewrite H. Qed.

Lemma has_space_paren_cons a b g :
  has_space_paren (String a (String b g))
  = (Ascii.eqb a " " && Ascii.eqb b "(") || has_space_paren (String b g).
Proof. reflexivity. Qed.

(** A group without the separator is the first part of its label. *)
Lemma split_space_paren_clean g rest :
  has_space_paren g = false ->
  split_space_paren (g +:+ " (" +:+ rest) = g :: split_space_paren rest.
Proof.
  induction g as [| a g IH]; [done |].
  intros Hg. destruct g as [| b g'].
  - rewrite append_String.
    change ("" +:+ " (" +:+ rest) with (String " " (String "(" rest)).
    rewrite split_space_paren_other by (by rewrite andb_false_r).
    by rewrite split_space_paren_sep.
  - rewrite has_space_paren_cons in Hg. apply orb_false_iff in Hg as [Hab Hg].
    rewrite (append_String a), (append_String b).
    rewrite split_space_paren_other by done.
    rewrite <- (append_String b). by rewrite (IH Hg).
Qed.

(** A group with the separator gives a label of three parts or more. *)
Lemma split_space_paren_dirty n g rest :
  (String.length g <= n)%nat ->
  (2 <= length (split_space_paren (g +:+ " (" +:+ rest)))%nat
  /\ (has_space_paren g = true ->
      (3 <= length (split_space_paren (g +:+ " (" +:+ rest)))%nat).
Proof.
  assert (Hnil : (2 <= length (split_space_paren ("" +:+ " (" +:+ rest)))%nat).
  { change ("" +:+ " (" +:+ rest) with (String " " (String "(" rest)).
    rewrite split_space_paren_sep.
    pose proof (split_space_paren_nonempty rest). simpl. lia. }
  revert g. induction n as [| n IH]; intros g Hn.
  - destruct g; [by split | simpl in Hn; lia].
  - destruct g as [| a g]; [by split |].
    simpl in Hn. destruct g as [| b g'].
    { split; [| done]. rewrite append_String.
      change ("" +:+ " (" +:+ rest) with (String " " (String "(" rest)).
      rewrite split_space_paren_other by (by rewrite andb_false_r).
      pose proof (length_cons_head a
        (split_space_paren (String " " (String "(" rest)))).
      change ("" +:+ " (" +:+ rest) with (String " " (String "(" rest)) in Hnil.
      lia. }
    simpl in Hn. rewrite (append_String a), (append_String b).
    rewrite has_space_paren_cons.
    destruct (Ascii.eqb a " " && Ascii.eqb b "(") eqn:Hab.
    + apply andb_true_iff in Hab as [Ha Hb].
      apply Ascii.eqb_eq in Ha, Hb. subst a b.
      rewrite split_space_paren_sep.
      destruct (IH g' ltac:(lia)) as [H2 _].
      simpl. split; [lia | intros _; lia].
    + rewrite split_space_paren_other by done.
      rewrite <- (append_String b).
      destruct (IH (String b g') ltac:(simpl; lia)) as [H2 H3].
      pose proof (length_cons_head a
        (split_space_paren (String b g' +:+ " (" +:+ rest))).
      split; [lia |]. rewrite orb_false_l. intros Hg. specialize (H3 Hg). lia.
Qed.

Lemma level_name_read_back l :
  split_space_paren (SkillLevel_name l +:+ ")") = [SkillLevel_name l +:+ ")"]
  /\ drop_last (SkillLevel_name l +:+ ")") = SkillLevel_name l
  /\ SkillLevel_by_name (upper (SkillLevel_name l)) = Done l.
Proof. by destruct l. Qed.

Lemma skill_label_parse (s : Skill.t) (g : string) (l : SkillLevel) :
  Skill.skill_group s = PyStr g ->
  Skill.skill_level s = PySkillLevel l ->
  has_space_paren g = false ->
  exists label,
    skill_label s = Done label /\ parse_skill_label label = Done (g, l).
Proof.
  intros Hg Hl Hclean. unfold skill_label. rewrite Hg, Hl. simpl.
  eexists. split; [reflexivity |].
  unfold parse_skill_label.
  destruct (level_name_read_back l) as (Hsplit & Hdrop & Hname).
  rewrite (split_space_paren_clean g _ Hclean), Hsplit. simpl.
  by rewrite Hdrop, Hname.
Qed.

(** X9: the label of a skill whose group is a text without [" ("]
    and whose level is a [SkillLevel] member reads back as that group
    and that level. *)
Theorem skill_label_round_trip (s : Skill.t) (g : string) (l : SkillLevel) :
  Skill.skill_group s = PyStr g ->
  Skill.skill_level s = PySkillLevel l ->
  has_space_paren g = false ->
  exists label,
    skill_label s = Done label /\ parse_skill_label label = Done (g, l).
Proof. apply skill_label_parse. Qed.

Lemma skill_label_round_trip_witness :
  exists label,
    skill_label python_advanced = Done label
    /\ parse_skill_label label = Done ("Python", ADVANCED).
Proof.
  apply (skill_label_round_trip python_advanced "Python" ADVANCED);
    reflexivity.
Defined.

Lemma unpack2_long {A} (parts : list A) :
  (3 <= length parts)%nat -> unpack2 parts = Failed (Builtin ValueError).
Proof. destruct parts as [| ? [| ? [| ? ?]]]; simpl; [lia | lia | lia | done]. Qed.

(** X10: the label of a skill whose group contains [" ("] splits
    into three parts or more: reading it raises [ValueError], so the
    skill cannot be selected, whatever the skills table holds. *)
Theorem skill_label_with_separator (catalog : list Skill.t) (s : Skill.t)
    (g : string) (l : SkillLevel) :
  Skill.skill_group s = PyStr g ->
  Skill.skill_level s = PySkillLevel l ->
  has_space_paren g = true ->
  exists label,
    skill_label s = Done label
    /\ parse_skill_label label = Failed (Builtin ValueError)
    /\ resolve_skill catalog label = Failed (Builtin ValueError).
Proof.
  intros Hg Hl Hdirty. unfold skill_label. rewrite Hg, Hl. simpl.
  eexists. split; [reflexivity |].
  assert (Hp : parse_skill_label (g +:+ " (" +:+ SkillLevel_name l +:+ ")")
               = Failed (Builtin ValueError)).
  { unfold parse_skill_label. rewrite unpack2_long; [done |].
    by apply (split_space_paren_dirty (String.length g) g). }
  split; [exact Hp |]. unfold resolve_skill. by rewrite Hp.
Qed.

Lemma skill_label_with_separator_witness :
  exists label,
    skill_label c_ansi_expert = Done label
    /\ parse_skill_label label = Failed (Builtin ValueError)
    /\ resolve_skill sample_catalog label = Failed (Builtin ValueError).
Proof.
  apply (skill_label_with_separator sample_catalog c_ansi_expert
           "C (ANSI)" EXPERT); reflexivity.
Defined.


(** ** Resolving the selected skills *)

Lemma mapM_Done {A B} (f : A -> outcome B) l k :
  mapM f l = Done k <-> Forall2 (fun x y => f x = Done y) l k.
Proof.
  split.
  - revert k. induction l as [| x l IH]; intros k; simpl.
    + intros [= <-]. constructor.
    + destruct (f x) as [y |] eqn:Hx; simpl; [| done].
      destruct (mapM f l) as [k' |] eqn:Hl; simpl; [| done].
      intros [= <-]. constructor; [done | by apply IH].
  - induction 1 as [| x y l k Hx _ IH]; simpl; [done |].
    by rewrite Hx, IH.
Qed.

Lemma query_skill_first_Some catalog name level s :
  query_skill_first catalog name level = Some s ->
  s ∈ catalog /\ Skill.skill_group s = PyStr name
  /\ Skill.skill_level s = PySkillLevel level.
Proof.
  unfold query_skill_first. intros H. apply find_some in H as [Hin Hs].
  apply andb_true_iff in Hs as [Hg Hl].
  apply py_eq_true in Hg, Hl. by rewrite list_elem_of_In.
Qed.

Lemma query_skill_first_None catalog name level s :
  query_skill_first catalog name level = None ->
  s ∈ catalog -> Skill.skill_group s = PyStr name ->
  Skill.skill_level s = PySkillLevel level -> False.
Proof.
  unfold query_skill_first. intros H Hin Hg Hl.
  apply list_elem_of_In in Hin.
  pose proof (find_none _ _ H s Hin) as Hs. simpl in Hs.
  rewrite Hg, Hl in Hs.
  by rewrite !(proj2 (py_eq_true _ _) eq_refl) in Hs.
Qed.

Lemma resolve_skill_sound catalog skill_str s :
  resolve_skill catalog skill_str = Done s ->
  s ∈ catalog /\ valid_skill s = true
  /\ exists g l, parse_skill_label skill_str = Done (g, l)
                 /\ Skill.skill_group s = PyStr g
                 /\ Skill.skill_level s = PySkillLevel l.
Proof.
  unfold resolve_skill.
  destruct (parse_skill_label skill_str) as [[g l] |] eqn:Hp; simpl; [| done].
  destruct (query_skill_first catalog g l) as [s' |] eqn:Hq; [| done].
  intros [= <-]. apply query_skill_first_Some in Hq as (Hin & Hg & Hl).
  split; [done |]. split; [unfold valid_skill; by rewrite Hg, Hl |].
  by exists g, l.
Qed.

Lemma selectable_inv s :
  selectable s = true ->
  exists g l, Skill.skill_group s = PyStr g
              /\ Skill.skill_level s = PySkillLevel l
              /\ has_space_paren g = false.
Proof.
  unfold selectable.
  destruct (Skill.skill_group s) as [| | g | | | |]; try done.
  destruct (Skill.skill_level s) as [| | | | l | |]; try done.
  intros H. exists g, l. by apply negb_true_iff in H.
Qed.

Lemma resolve_selectable (catalog : list Skill.t) (s : Skill.t) :
  s ∈ catalog -> selectable s = true ->
  exists label s',
    skill_label s = Done label
    /\ resolve_skill catalog label = Done s'
    /\ s' ∈ catalog
    /\ Skill.skill_group s' = Skill.skill_group s
    /\ Skill.skill_level s' = Skill.skill_level s.
Proof.
  intros Hin Hsel. apply selectable_inv in Hsel as (g & l & Hg & Hl & Hclean).
  destruct (skill_label_parse s g l Hg Hl Hclean) as (label & Hlab & Hp).
  exists label. unfold resolve_skill. rewrite Hp. simpl.
  destruct (query_skill_first catalog g l) as [s' |] eqn:Hq.
  - apply query_skill_first_Some in Hq as (Hin' & Hg' & Hl').
    exists s'. by rewrite Hg, Hl.
  - exfalso. by eapply query_skill_first_None.
Qed.

(** X11: selecting the label of a row of the skills table (a text
    group without [" ("], a [SkillLevel] member) finds a row of the
    table with the same group and level. *)
Theorem resolve_skill_label (catalog : list Skill.t) (s : Skill.t) :
  s ∈ catalog -> selectable s = true ->
  exists label s',
    skill_label s = Done label
    /\ resolve_skill catalog label = Done s'
    /\ s' ∈ catalog
    /\ Skill.skill_group s' = Skill.skill_group s
    /\ Skill.skill_level s' = Skill.skill_level s.
Proof. apply resolve_selectable. Qed.

Lemma resolve_skill_label_witness :
  exists label s',
    skill_label sql_intermediate = Done label
    /\ resolve_skill sample_catalog label = Done s'
    /\ s' ∈ sample_catalog
    /\ Skill.skill_group s' = Skill.skill_group sql_intermediate
    /\ Skill.skill_level s' = Skill.skill_level sql_intermediate.
Proof.
  apply (resolve_skill_label sample_catalog sql_intermediate).
  - unfold sample_catalog. set_solver.
  - reflexivity.
Defined.

Lemma resolve_skills_sound catalog selected skills :
  resolve_skills catalog selected = Done skills ->
  selected <> []
  /\ Forall2 (fun str s => resolve_skill catalog str = Done s) selected skills.
Proof.
  unfold resolve_skills. destruct (bool_decide_reflect (selected = [])); [done |].
  intros Hm. by apply mapM_Done in Hm.
Qed.

Lemma resolve_skills_valid catalog selected skills :
  resolve_skills catalog selected = Done skills ->
  Z.of_nat (length selected) <= sys_maxsize ->
  valid_skills skills = true
  /\ Forall (fun s => s ∈ catalog) skills
  /\ length skills = length selected.
Proof.
  intros H Hlen. apply resolve_skills_sound in H as [Hne H].
  pose proof (Forall2_length _ _ _ H) as Hl.
  assert (Hall : Forall (fun s => s ∈ catalog /\ valid_skill s = true) skills).
  { clear Hlen Hl Hne.
    induction H as [| str s ? ? Hr _ IH]; constructor; [| done].
    by apply resolve_skill_sound in Hr as (? & ? & _). }
  split; [| split; [| done]].
  - unfold valid_skills. rewrite !andb_true_iff. split; [split |].
    + apply negb_true_iff, bool_decide_eq_false. intros ->.
      by destruct selected.
    + apply forallb_forall. intros s Hs. apply list_elem_of_In in Hs.
      rewrite Forall_forall in Hall. by apply Hall.
    + apply Z.leb_le. lia.
  - eapply Forall_impl; [exact Hall |]. by intros s [? _].
Qed.


(** ** Enumeration look-ups *)

(** X12: [LocationType(s)], [CareerPreference(s)] and
    [Availability(s)] return a member exactly when [s] is its value, and
    raise [ValueError] on every other text. *)
Theorem enum_by_value_round_trip :
  (forall l s, LocationType_by_value (PyStr s) = Ok l
               <-> s = LocationType_value l)
  /\ (forall c s, CareerPreference_by_value (PyStr s) = Ok c
                  <-> s = CareerPreference_value c)
  /\ (forall a s, Availability_by_value (PyStr s) = Ok a
                  <-> s = Availability_value a)
  /\ (forall s, (forall l, s <> LocationType_value l) ->
                LocationType_by_value (PyStr s) = Raise ValueError)
  /\ (forall s, (forall c, s <> CareerPreference_value c) ->
                CareerPreference_by_value (PyStr s) = Raise ValueError)
  /\ (forall s, (forall a, s <> Availability_value a) ->
                Availability_by_value (PyStr s) = Raise ValueError).
Proof.
  repeat split.
  - unfold LocationType_by_value, LocationType_members.
    cbn [find LocationType_value].
    repeat match goal with
           | |- context [String.eqb ?v s] =>
               destruct (String.eqb_spec v s) as [<- |]; [by intros [= <-] |]
           end.
    done.
  - intros ->. by destruct l.
  - unfold CareerPreference_by_value, CareerPreference_members.
    cbn [find CareerPreference_value].
    repeat match goal with
           | |- context [String.eqb ?v s] =>
               destruct (String.eqb_spec v s) as [<- |]; [by intros [= <-] |]
           end.
    done.
  - intros ->. by destruct c.
  - unfold Availability_by_value, Availability_members.
    cbn [find Availability_value].
    repeat match goal with
           | |- context [String.eqb ?v s] =>
               destruct (String.eqb_spec v s) as [<- |]; [by intros [= <-] |]
           end.
    done.
  - intros ->. by destruct a.
  - intros s H. unfold LocationType_by_value, LocationType_members.
    cbn [find LocationType_value].
    repeat match goal with
           | |- context [String.eqb ?v s] =>
               destruct (String.eqb_spec v s) as [<- |]; [solve [by destruct (H REMOTE) | by destruct (H HYBRID) | by destruct (H ON_SITE)] |]
           end.
    done.
  - intros s H. unfold CareerPreference_by_value, CareerPreference_members.
    cbn [find CareerPreference_value].
    repeat match goal with
           | |- context [String.eqb ?v s] =>
               destruct (String.eqb_spec v s) as [<- |]; [solve [by destruct (H UPWARD_MOBILITY) | by destruct (H LATERAL_MOVE) | by destruct (H CAREER_CHANGE)] |]
           end.
    done.
  - intros s H. unfold Availability_by_value, Availability_members.
    cbn [find Availability_value].
    repeat match goal with
           | |- context [String.eqb ?v s] =>
               destruct (String.eqb_spec v s) as [<- |]; [solve [by destruct (H IMMEDIATE) | by destruct (H WITHIN_1_MONTH) | by destruct (H WITHIN_3_MONTHS)] |]
           end.
    done.
Qed.


Lemma enum_by_value_round_trip_witness :
  LocationType_by_value (PyStr "Hybrid") = Ok HYBRID.
Proof.
  apply (proj1 enum_by_value_round_trip HYBRID "Hybrid"). reflexivity.
Defined.

(** ** The forms *)

Lemma shown_matches {E} (score : E -> result spec_float) (entities : list E) :
  Forall (fun e => exists f, score e = Ok f /\ is_nan f = false) entities ->
  exists out,
    rank score entities 5 = Ok out
    /\ length out = (5 `min` length entities)%nat.
Proof.
  intros Hall.
  assert (Hsc : exists matches, scored score entities matches).
  { apply scored_exists. eapply Forall_impl; [exact Hall |].
    intros e (f & Hf & _). eauto. }
  destruct Hsc as [matches Hsc].
  assert (Hn : Forall (fun m => is_nan (snd m) = false) matches).
  { clear -Hall Hsc. induction Hsc as [| e m es ms (_ & Hs) _ IH];
      constructor.
    - apply Forall_cons in Hall as [(f & Hf & Hnan) _]. congruence.
    - apply IH. by apply Forall_cons in Hall as [_ ?]. }
  destruct (rank_ranking score entities matches 5 ltac:(lia) Hsc Hn)
    as (out & Hrank & ranking & -> & Hperm & _).
  eexists. split; [exact Hrank |].
  rewrite length_take, <- (scored_length _ _ _ Hsc).
  by rewrite (Permutation_length Hperm).
Qed.

Lemma valid_score job candidate :
  valid_job job = true -> valid_candidate candidate = true ->
  exists f, calculate_matching_score job candidate = Ok f
            /\ is_nan f = false.
Proof.
  intros Hj Hc. destruct (calculate_matching_score_returns _ _ Hj Hc) as [f Hf].
  exists f. split; [done |]. by eapply calculate_matching_score_not_nan.
Qed.

(** X13: a candidate that the candidate form builds is in the input
    domain of the scorer, its skills are rows of the skills table, one
    per selected label, and the matches shown next are produced for any
    list of valid jobs: the first 5 of them, or all when there are
    fewer. *)
Theorem new_candidate_from_form_valid (catalog : list Skill.t)
    (username : string)
    (total_experience pref_location_str salary_min salary_max
       career_pref_str : pyval)
    (selected_skills : list string) (candidate : Candidate.t) :
  new_candidate_from_form catalog username total_experience pref_location_str
    salary_min salary_max career_pref_str selected_skills = Done candidate ->
  Z.of_nat (length selected_skills) <= sys_maxsize ->
  valid_candidate candidate = true
  /\ Forall (fun s => s ∈ catalog) (Candidate.skills candidate)
  /\ length (Candidate.skills candidate) = length selected_skills
  /\ forall jobs,
       Forall (fun job => valid_job job = true) jobs ->
       exists out,
         candidate_form_matches catalog jobs username total_experience
           pref_location_str salary_min salary_max career_pref_str
           selected_skills = Done out
         /\ top_job_matches jobs candidate = Ok out
         /\ length out = (5 `min` length jobs)%nat.
Proof.
  intros Hform Hlen.
  assert (Hvalid : valid_candidate candidate = true
                   /\ Forall (fun s => s ∈ catalog) (Candidate.skills candidate)
                   /\ length (Candidate.skills candidate)
                      = length selected_skills).
  { revert Hform. unfold new_candidate_from_form.
    destruct (validate_experience total_experience) as [n |] eqn:Hn;
      simpl; [| done].
    destruct (py_int salary_min) as [lo |]; simpl; [| done].
    destruct (py_int salary_max) as [hi |]; simpl; [| done].
    destruct (validate_salary (PyInt lo) (PyInt hi)) as [[smin smax] |] eqn:Hs;
      simpl; [| done].
    destruct (LocationType_by_value pref_location_str) as [l |];
      simpl; [| done].
    destruct (CareerPreference_by_value career_pref_str) as [c |];
      simpl; [| done].
    destruct (resolve_skills catalog selected_skills) as [skills |] eqn:Hsk;
      simpl; [| done].
    intros [= <-].
    apply validate_experience_nonneg in Hn.
    apply validate_salary_ordered in Hs as [[= <- <-] Hord].
    destruct (resolve_skills_valid _ _ _ Hsk Hlen) as (Hv & Hin & Hl).
    split; [| by split].
    unfold valid_candidate. simpl. rewrite Hv.
    simpl in Hord. rewrite Hord.
    by rewrite (proj2 (Z.leb_le 0 n) Hn). }
  destruct Hvalid as (Hv & Hin & Hl).
  split; [done |]. split; [done |]. split; [done |].
  intros jobs Hjobs. unfold candidate_form_matches. rewrite Hform. simpl.
  destruct (shown_matches
              (fun job => calculate_matching_score job candidate) jobs)
    as (out & Hrank & Hout).
  { eapply Forall_impl; [exact Hjobs |]. intros j Hj. by apply valid_score. }
  exists out. unfold top_job_matches. by rewrite Hrank.
Qed.

Lemma new_candidate_from_form_valid_witness :
  valid_candidate
    {| Candidate.id := PyNone; Candidate.username := PyStr "bob";
       Candidate.total_experience := PyInt 3;
       Candidate.preferred_location := PyLocationType HYBRID;
       Candidate.expected_salary_min := PyInt 60000;
       Candidate.expected_salary_max := PyInt 90000;
       Candidate.career_preference := PyCareerPreference LATERAL_MOVE;
       Candidate.skills := [python_expert; sql_intermediate] |} = true.
Proof.
  apply (new_candidate_from_form_valid sample_catalog "  bob "
           (PyInt 3) (PyStr "Hybrid") (PyInt 60000) (PyInt 90000)
           (PyStr "Lateral Move") ["Python (expert)"; "SQL (INTERMEDIATE)"]).
  - vm_compute. reflexivity.
  - vm_compute. discriminate.
Defined.

(** X14: a job that the job form builds is in the input domain of the
    scorer, its skills are rows of the skills table, one per selected
    label, and the matches shown next are produced for any list of
    valid candidates: the first 5 of them, or all when there are
    fewer. *)
Theorem new_job_from_form_valid (catalog : list Skill.t) (title : string)
    (req_exp location_str salary_min salary_max availability_str
       career_pref_str : pyval)
    (required_skills : list string) (job : Job.t) :
  new_job_from_form catalog title req_exp location_str salary_min salary_max
    availability_str career_pref_str required_skills = Done job ->
  Z.of_nat (length required_skills) <= sys_maxsize ->
  valid_job job = true
  /\ Forall (fun s => s ∈ catalog) (Job.skills job)
  /\ length (Job.skills job) = length required_skills
  /\ forall candidates,
       Forall (fun candidate => valid_candidate candidate = true)
         candidates ->
       exists out,
         job_form_matches catalog candidates title req_exp location_str
           salary_min salary_max availability_str career_pref_str
           required_skills = Done out
         /\ top_candidate_matches job candidates = Ok out
         /\ length out = (5 `min` length candidates)%nat.
Proof.
  intros Hform Hlen.
  assert (Hvalid : valid_job job = true
                   /\ Forall (fun s => s ∈ catalog) (Job.skills job)
                   /\ length (Job.skills job) = length required_skills).
  { revert Hform. unfold new_job_from_form.
    destruct (validate_experience req_exp) as [n |] eqn:Hn; simpl; [| done].
    destruct (py_int salary_min) as [lo |]; simpl; [| done].
    destruct (py_int salary_max) as [hi |]; simpl; [| done].
    destruct (validate_salary (PyInt lo) (PyInt hi)) as [[smin smax] |] eqn:Hs;
      simpl; [| done].
    destruct (LocationType_by_value location_str) as [l |]; simpl; [| done].
    destruct (Availability_by_value availability_str) as [a |];
      simpl; [| done].
    destruct (CareerPreference_by_value career_pref_str) as [c |];
      simpl; [| done].
    destruct (resolve_skills catalog required_skills) as [skills |] eqn:Hsk;
      simpl; [| done].
    intros [= <-].
    apply validate_experience_nonneg in Hn.
    apply validate_salary_ordered in Hs as [[= <- <-] Hord].
    destruct (resolve_skills_valid _ _ _ Hsk Hlen) as (Hv & Hin & Hl).
    split; [| by split].
    unfold valid_job. simpl. rewrite Hv.
    simpl in Hord. rewrite Hord.
    by rewrite (proj2 (Z.leb_le 0 n) Hn). }
  destruct Hvalid as (Hv & Hin & Hl).
  split; [done |]. split; [done |]. split; [done |].
  intros candidates Hcs. unfold job_form_matches. rewrite Hform. simpl.
  destruct (shown_matches
              (fun candidate => calculate_matching_score job candidate)
              candidates) as (out & Hrank & Hout).
  { eapply Forall_impl; [exact Hcs |]. intros c Hc. by apply valid_score. }
  exists out. unfold top_candidate_matches. by rewrite Hrank.
Qed.

Lemma new_job_from_form_valid_witness :
  valid_job
    {| Job.id := PyNone; Job.title := PyStr "DBA";
       Job.required_experience := PyInt 2;
       Job.location_type := PyLocationType REMOTE;
       Job.salary_min := PyInt 70000; Job.salary_max := PyInt 70000;
       Job.availability := PyAvailability IMMEDIATE;
       Job.career_preference := PyCareerPreference CAREER_CHANGE;
       Job.skills := [sql_intermediate] |} = true.
Proof.
  apply (new_job_from_form_valid sample_catalog "DBA "
           (PyInt 2) (PyStr "Remote") (PyInt 70000) (PyInt 70000)
           (PyStr "Immediate") (PyStr "Career Change") ["SQL (INTERMEDIATE)"]).
  - vm_compute. reflexivity.
  - vm_compute. discriminate.
Defined.

(** ** What the forms accept *)

Lemma LocationType_by_value_value l :
  LocationType_by_value (PyStr (LocationType_value l)) = Ok l.
Proof. by destruct l. Qed.

Lemma CareerPreference_by_value_value c :
  CareerPreference_by_value (PyStr (CareerPreference_value c)) = Ok c.
Proof. by destruct c. Qed.

Lemma Availability_by_value_value a :
  Availability_by_value (PyStr (Availability_value a)) = Ok a.
Proof. by destruct a. Qed.

Lemma validate_salary_PyInt lo hi :
  lo <= hi -> validate_salary (PyInt lo) (PyInt hi) = Ok (PyInt lo, PyInt hi).
Proof.
  intros H. unfold validate_salary. simpl. rewrite Z.gtb_ltb.
  by rewrite (proj2 (Z.ltb_ge hi lo) H).
Qed.

Lemma resolve_skills_picked catalog selected picked :
  selected <> [] -> picked_from catalog selected picked ->
  exists skills,
    resolve_skills catalog selected = Done skills
    /\ Forall2 (fun s s' => s' ∈ catalog
                            /\ Skill.skill_group s' = Skill.skill_group s
                            /\ Skill.skill_level s' = Skill.skill_level s)
         picked skills.
Proof.
  intros Hne Hp. unfold resolve_skills.
  destruct (bool_decide_reflect (selected = [])); [done |].
  clear Hne n. induction Hp as [| label s selected picked (Hin & Hsel & Hl) _ IH].
  - exists []. split; [done | constructor].
  - destruct IH as (skills & Hm & Hall).
    destruct (resolve_selectable catalog s Hin Hsel)
      as (label' & s' & Hl' & Hr & Hin' & Hg & Hlv).
    rewrite Hl in Hl'. injection Hl' as <-.
    exists (s' :: skills). split; [| by constructor].
    simpl. rewrite Hr. simpl. by rewrite Hm.
Qed.

(** X15: the candidate form accepts what its widgets offer: a
    non-negative experience, salaries with minimum <= maximum, the
    value of a location and of a career preference, and at least one
    label of a selectable row; the candidate holds these values and, for
    each label, a row with the group and level of the row picked. *)
Theorem new_candidate_from_form_accepts (catalog : list Skill.t)
    (username : string) (n lo hi : Z) (l : LocationType)
    (c : CareerPreference) (selected : list string) (picked : list Skill.t) :
  0 <= n -> lo <= hi -> selected <> [] ->
  picked_from catalog selected picked ->
  exists skills,
    new_candidate_from_form catalog username (PyInt n)
      (PyStr (LocationType_value l)) (PyInt lo) (PyInt hi)
      (PyStr (CareerPreference_value c)) selected
    = Done {| Candidate.id := PyNone;
              Candidate.username := PyStr (str_strip username);
              Candidate.total_experience := PyInt n;
              Candidate.preferred_location := PyLocationType l;
              Candidate.expected_salary_min := PyInt lo;
              Candidate.expected_salary_max := PyInt hi;
              Candidate.career_preference := PyCareerPreference c;
              Candidate.skills := skills |}
    /\ Forall2 (fun s s' => s' ∈ catalog
                            /\ Skill.skill_group s' = Skill.skill_group s
                            /\ Skill.skill_level s' = Skill.skill_level s)
         picked skills.
Proof.
  intros Hn Hlh Hne Hp.
  destruct (resolve_skills_picked catalog selected picked Hne Hp)
    as (skills & Hr & Hall).
  exists skills. split; [| done].
  unfold new_candidate_from_form.
  rewrite (validate_experience_PyInt n Hn). cbn [mbind outcome_bind lift py_int].
  rewrite (validate_salary_PyInt lo hi Hlh). cbn [mbind outcome_bind lift py_int].
  rewrite LocationType_by_value_value. cbn [mbind outcome_bind lift py_int].
  rewrite CareerPreference_by_value_value. cbn [mbind outcome_bind lift py_int].
  by rewrite Hr.
Qed.

Lemma new_candidate_from_form_accepts_witness :
  exists skills,
    new_candidate_from_form sample_catalog " bob" (PyInt 3)
      (PyStr (LocationType_value HYBRID)) (PyInt 60000) (PyInt 90000)
      (PyStr (CareerPreference_value LATERAL_MOVE))
      ["Python (EXPERT)"; "SQL (INTERMEDIATE)"]
    = Done {| Candidate.id := PyNone;
              Candidate.username := PyStr (str_strip " bob");
              Candidate.total_experience := PyInt 3;
              Candidate.preferred_location := PyLocationType HYBRID;
              Candidate.expected_salary_min := PyInt 60000;
              Candidate.expected_salary_max := PyInt 90000;
              Candidate.career_preference := PyCareerPreference LATERAL_MOVE;
              Candidate.skills := skills |}
    /\ Forall2 (fun s s' => s' ∈ sample_catalog
                            /\ Skill.skill_group s' = Skill.skill_group s
                            /\ Skill.skill_level s' = Skill.skill_level s)
         [python_expert; sql_intermediate] skills.
Proof.
  apply (new_candidate_from_form_accepts sample_catalog " bob" 3 60000 90000
           HYBRID LATERAL_MOVE ["Python (EXPERT)"; "SQL (INTERMEDIATE)"]
           [python_expert; sql_intermediate]).
  - lia.
  - lia.
  - discriminate.
  - constructor; [| constructor; [| constructor]].
    + split; [| split; reflexivity].
      unfold sample_catalog. rewrite !elem_of_cons. tauto.
    + split; [| split; reflexivity].
      unfold sample_catalog. rewrite !elem_of_cons. tauto.
Defined.

(** X16: the job form accepts what its widgets offer, and the job
    holds these values and, for each label, a row with the group and
    level of the row picked. *)
Theorem new_job_from_form_accepts (catalog : list Skill.t)
    (title : string) (n lo hi : Z) (l : LocationType) (a : Availability)
    (c : CareerPreference) (selected : list string) (picked : list Skill.t) :
  0 <= n -> lo <= hi -> selected <> [] ->
  picked_from catalog selected picked ->
  exists skills,
    new_job_from_form catalog title (PyInt n)
      (PyStr (LocationType_value l)) (PyInt lo) (PyInt hi)
      (PyStr (Availability_value a))
      (PyStr (CareerPreference_value c)) selected
    = Done {| Job.id := PyNone;
              Job.title := PyStr (str_strip title);
              Job.required_experience := PyInt n;
              Job.location_type := PyLocationType l;
              Job.salary_min := PyInt lo;
              Job.salary_max := PyInt hi;
              Job.availability := PyAvailability a;
              Job.career_preference := PyCareerPreference c;
              Job.skills := skills |}
    /\ Forall2 (fun s s' => s' ∈ catalog
                            /\ Skill.skill_group s' = Skill.skill_group s
                            /\ Skill.skill_level s' = Skill.skill_level s)
         picked skills.
Proof.
  intros Hn Hlh Hne Hp.
  destruct (resolve_skills_picked catalog selected picked Hne Hp)
    as (skills & Hr & Hall).
  exists skills. split; [| done].
  unfold new_job_from_form.
  rewrite (validate_experience_PyInt n Hn). cbn [mbind outcome_bind lift py_int].
  rewrite (validate_salary_PyInt lo hi Hlh). cbn [mbind outcome_bind lift py_int].
  rewrite LocationType_by_value_value. cbn [mbind outcome_bind lift py_int].
  rewrite Availability_by_value_value. cbn [mbind outcome_bind lift py_int].
  rewrite CareerPreference_by_value_value. cbn [mbind outcome_bind lift py_int].
  by rewrite Hr.
Qed.


Lemma new_job_from_form_accepts_witness :
  exists skills,
    new_job_from_form sample_catalog "DBA" (PyInt 2)
      (PyStr (LocationType_value REMOTE)) (PyInt 70000) (PyInt 70000)
      (PyStr (Availability_value IMMEDIATE))
      (PyStr (CareerPreference_value CAREER_CHANGE)) ["SQL (INTERMEDIATE)"]
    = Done {| Job.id := PyNone;
              Job.title := PyStr (str_strip "DBA");
              Job.required_experience := PyInt 2;
              Job.location_type := PyLocationType REMOTE;
              Job.salary_min := PyInt 70000;
              Job.salary_max := PyInt 70000;
              Job.availability := PyAvailability IMMEDIATE;
              Job.career_preference := PyCareerPreference CAREER_CHANGE;
              Job.skills := skills |}
    /\ Forall2 (fun s s' => s' ∈ sample_catalog
                            /\ Skill.skill_group s' = Skill.skill_group s
                            /\ Skill.skill_level s' = Skill.skill_level s)
         [sql_intermediate] skills.
Proof.
  apply (new_job_from_form_accepts sample_catalog "DBA" 2 70000 70000
           REMOTE IMMEDIATE CAREER_CHANGE ["SQL (INTERMEDIATE)"]
           [sql_intermediate]).
  - lia.
  - lia.
  - discriminate.
  - constructor; [| constructor].
    split; [| split; reflexivity].
    unfold sample_catalog. rewrite !elem_of_cons. tauto.
Defined.

(** ** [format_skills] *)

Lemma mapM_Failed {A B} (f : A -> outcome B) l x :
  Exists (fun a => f a = Failed x) l ->
  Forall (fun a => (exists b, f a = Done b) \/ f a = Failed x) l ->
  mapM f l = Failed x.
Proof.
  intros Hex Hall. induction Hall as [| a l Ha _ IH]; [by inversion Hex |].
  simpl. destruct Ha as [[b Hb] | ->]; [| done].
  rewrite Hb. simpl. rewrite IH; [done |].
  inversion Hex as [? ? Hbad |]; subst; [congruence | done].
Qed.

Lemma skill_label_cases s :
  (exists label, skill_label s = Done label)
  \/ skill_label s = Failed AttributeError.
Proof.
  unfold skill_label. destruct (Skill.skill_level s); simpl; eauto.
Qed.

(** X17: [format_skills] returns the labels of the skills joined by
    [", "] when every skill has a label, and raises [AttributeError]
    when a skill has no level. *)
Theorem format_skills_returns (skills : list Skill.t) :
  (Forall (fun s => exists label, skill_label s = Done label) skills ->
   exists labels,
     Forall2 (fun s label => skill_label s = Done label) skills labels
     /\ format_skills skills = Done (String.concat ", " labels))
  /\ (Exists (fun s => Skill.skill_level s = PyNone) skills ->
      format_skills skills = Failed AttributeError).
Proof.
  unfold format_skills. split.
  - intros Hall.
    assert (H : exists labels,
               Forall2 (fun s label => skill_label s = Done label)
                 skills labels).
    { induction Hall as [| s skills [label Hl] _ [labels IH]].
      - exists []. constructor.
      - exists (label :: labels). by constructor. }
    destruct H as [labels H]. exists labels. split; [done |].
    by rewrite (proj2 (mapM_Done _ _ _) H).
  - intros Hex. rewrite (mapM_Failed skill_label skills AttributeError);
      [done | |].
    + eapply Exists_impl; [exact Hex |]. intros s Hs.
      unfold skill_label. by rewrite Hs.
    + apply Forall_forall. intros s _. apply skill_label_cases.
Qed.

Lemma format_skills_returns_witness :
  exists labels,
    Forall2 (fun s label => skill_label s = Done label)
      [python_expert; sql_intermediate] labels
    /\ format_skills [python_expert; sql_intermediate]
       = Done (String.concat ", " labels).
Proof.
  apply (proj1 (format_skills_returns [python_expert; sql_intermediate])).
  constructor; [| constructor; [| constructor]]; eexists; reflexivity.
Defined.
